(** * Transport property models of SU2

    A shallow embedding of [SU2_CFD/src/transport_model.cpp]: the dynamic
    viscosity models ([CConstantViscosity], [CSutherland],
    [CFluidPropViscosity]) and the thermal conductivity models
    ([CConstantConductivity], [CConstantPrandtl], [CFluidPropConductivity]),
    followed by the properties of their evaluation methods.

    Every C++ class is a module holding the record of its data members
    ([t]), its constructors ([new], [new_void]) and its methods, which take
    the object first and return the updated object.  The arithmetic of
    [double] is an interface ([DoubleArith]): what is proved for every
    instance of it holds whatever the arithmetic is, IEEE-754 included.
    Statements that compare closed forms algebraically are made at the
    instance [xreal], exact real arithmetic extended with a NaN. *)

From Stdlib Require Import Reals Lra ZArith String Ascii List.
Import ListNotations.

Set Implicit Arguments.

(* ===================================================================== *)
(** * Arithmetic of [double] *)
(* ===================================================================== *)

(** The operations on [double] that the source uses: the literals ([0.0],
    [1.0], [2.0], [3.0]), the four arithmetic operators and libm's [pow]. *)
Class DoubleArith (D : Type) : Type := {
  dlit : Z -> D;
  dadd : D -> D -> D;
  dsub : D -> D -> D;
  dmul : D -> D -> D;
  ddiv : D -> D -> D;
  pow  : D -> D -> D
}.

Declare Scope double_scope.
Delimit Scope double_scope with dbl.
Infix "+" := dadd : double_scope.
Infix "-" := dsub : double_scope.
Infix "*" := dmul : double_scope.
Infix "/" := ddiv : double_scope.
Notation "0.0" := (dlit 0) : double_scope.
Notation "1.0" := (dlit 1) : double_scope.
Notation "2.0" := (dlit 2) : double_scope.
Notation "3.0" := (dlit 3) : double_scope.

(** ** Exact arithmetic with a NaN

    [Fin r] is the double whose value is the real [r]; [NaN] stands for every
    result that is not a finite real: a division by zero, [pow] outside its
    domain, and every operation on such a result.  Rounding and overflow are
    not modelled. *)
Inductive xreal : Type :=
| NaN : xreal
| Fin : R -> xreal.

Definition xlift2 (f : R -> R -> R) (x y : xreal) : xreal :=
  match x, y with
  | Fin a, Fin b => Fin (f a b)
  | _, _ => NaN
  end.

Definition xdiv (x y : xreal) : xreal :=
  match x, y with
  | Fin a, Fin b => if Req_dec_T b 0 then NaN else Fin (a / b)
  | _, _ => NaN
  end.

(** [pow] of C on finite reals: [exp (y * ln x)] for a positive base; for a
    zero base [0] when [y > 0], [1] when [y = 0] and a pole otherwise; for a
    negative base the integer power when [y] is an integer and a domain
    error otherwise. *)
Definition Rpow (x y : R) : xreal :=
  if Rlt_dec 0 x then Fin (Rpower x y)
  else if Req_dec_T x 0 then
    if Rlt_dec 0 y then Fin 0
    else if Req_dec_T y 0 then Fin 1 else NaN
  else
    if Req_dec_T y (IZR (Int_part y)) then Fin (powerRZ x (Int_part y))
    else NaN.

(** [pow(x, 0)] and [pow(1, y)] are [1] even for a NaN argument. *)
Definition xpow (x y : xreal) : xreal :=
  match x, y with
  | Fin a, Fin b => Rpow a b
  | Fin a, NaN => if Req_dec_T a 1 then Fin 1 else NaN
  | NaN, Fin b => if Req_dec_T b 0 then Fin 1 else NaN
  | NaN, NaN => NaN
  end.

#[export] Instance xreal_arith : DoubleArith xreal := {
  dlit := fun z => Fin (IZR z);
  dadd := xlift2 Rplus;
  dsub := xlift2 Rminus;
  dmul := xlift2 Rmult;
  ddiv := xdiv;
  pow  := xpow
}.

(** The real value of a double, [0] for a NaN. *)
Definition xval (x : xreal) : R :=
  match x with
  | Fin r => r
  | NaN => 0%R
  end.

(* ===================================================================== *)
(** * Dynamic viscosity models *)
(* ===================================================================== *)

(** ** [CViscosityModel]: the data members shared by every viscosity model *)
Module CViscosityModel.
Section Class.
Context {D : Type} `{DoubleArith D}.
Local Open Scope double_scope.

Record t : Type := mk {
  Mu : D;
  dmudrho_T : D;
  dmudT_rho : D
}.

(** [CViscosityModel::CViscosityModel(void)] *)
Definition new_void : t :=
  {| Mu := 0.0; dmudrho_T := 0.0; dmudT_rho := 0.0 |}.

Definition set_Mu (this : t) (v : D) : t :=
  {| Mu := v; dmudrho_T := dmudrho_T this; dmudT_rho := dmudT_rho this |}.

Definition set_dmudrho_T (this : t) (v : D) : t :=
  {| Mu := Mu this; dmudrho_T := v; dmudT_rho := dmudT_rho this |}.

Definition set_dmudT_rho (this : t) (v : D) : t :=
  {| Mu := Mu this; dmudrho_T := dmudrho_T this; dmudT_rho := v |}.
End Class.
Arguments t D : clear implicits.
End CViscosityModel.

(** ** [CSutherland] *)
Module CSutherland.
Section Class.
Context {D : Type} `{DoubleArith D}.
Local Open Scope double_scope.

Record t : Type := mk {
  base : CViscosityModel.t D;
  Mu_ref : D;
  T_ref : D;
  S : D
}.

Definition Mu (this : t) : D := CViscosityModel.Mu (base this).
Definition dmudrho_T (this : t) : D := CViscosityModel.dmudrho_T (base this).
Definition dmudT_rho (this : t) : D := CViscosityModel.dmudT_rho (base this).

Definition with_base (this : t) (b : CViscosityModel.t D) : t :=
  {| base := b; Mu_ref := Mu_ref this; T_ref := T_ref this; S := S this |}.

(** [CSutherland::CSutherland(void)] *)
Definition new_void : t :=
  {| base := CViscosityModel.new_void;
     Mu_ref := 0.0; T_ref := 0.0; S := 0.0 |}.

(** [CSutherland::CSutherland(double mu_ref, double t_ref, double s)] *)
Definition new (mu_ref t_ref s : D) : t :=
  {| base := CViscosityModel.new_void;
     Mu_ref := mu_ref; T_ref := t_ref; S := s |}.

(** [Mu = Mu_ref*pow((T/T_ref),(3.0/2.0))*((T_ref + S)/(T + S));] *)
Definition SetViscosity (this : t) (T rho : D) : t :=
  with_base this
    (CViscosityModel.set_Mu (base this)
       (Mu_ref this * pow (T / T_ref this) (3.0 / 2.0)
        * ((T_ref this + S this) / (T + S this)))).

(** [dmudrho_T = 0.0;
     dmudT_rho = Mu_ref*( (3.0/2.0)*pow( (T/T_ref),(1.0/2.0) )*( (T_ref + S)/(T + S) )
                 -pow( (T/T_ref),(3.0/2.0) )*(T_ref + S)/(T + S)/(T + S) );] *)
Definition SetDerViscosity (this : t) (T rho : D) : t :=
  let b1 := CViscosityModel.set_dmudrho_T (base this) 0.0 in
  let b2 :=
    CViscosityModel.set_dmudT_rho b1
      (Mu_ref this
       * ((3.0 / 2.0) * pow (T / T_ref this) (1.0 / 2.0)
            * ((T_ref this + S this) / (T + S this))
          - pow (T / T_ref this) (3.0 / 2.0) * (T_ref this + S this)
            / (T + S this) / (T + S this))) in
  with_base this b2.
End Class.
Arguments t D : clear implicits.
End CSutherland.

(** ** [CConstantViscosity] *)
Module CConstantViscosity.
Section Class.
Context {D : Type} `{DoubleArith D}.
Local Open Scope double_scope.

Record t : Type := mk {
  base : CViscosityModel.t D
}.

Definition Mu (this : t) : D := CViscosityModel.Mu (base this).
Definition dmudrho_T (this : t) : D := CViscosityModel.dmudrho_T (base this).
Definition dmudT_rho (this : t) : D := CViscosityModel.dmudT_rho (base this).

(** [CConstantViscosity::CConstantViscosity(void)] *)
Definition new_void : t := {| base := CViscosityModel.new_void |}.

(** [CConstantViscosity::CConstantViscosity(double mu_const)] *)
Definition new (mu_const : D) : t :=
  let b0 := CViscosityModel.new_void in
  let b1 := CViscosityModel.set_Mu b0 mu_const in
  let b2 := CViscosityModel.set_dmudrho_T b1 0.0 in
  let b3 := CViscosityModel.set_dmudT_rho b2 0.0 in
  {| base := b3 |}.

(** Modelled from the spec: [transport_model.cpp] defines no evaluation
    method for [CConstantViscosity]; the ones it inherits from
    [CViscosityModel] are in [transport_model.hpp] and its inline file,
    which are missing.  The spec, 4.1: "Constant: Mu is a fixed value set
    at construction; evaluate/evaluateDerivatives are no-ops". *)
Definition SetViscosity (this : t) (T rho : D) : t := this.

(** Modelled from the spec: the inherited [SetDerViscosity], missing with
    [transport_model.hpp]; a no-op by the same sentence of the spec. *)
Definition SetDerViscosity (this : t) (T rho : D) : t := this.
End Class.
Arguments t D : clear implicits.
End CConstantViscosity.

(* ===================================================================== *)
(** * Foreign functions: FluidProp and [printf] *)
(* ===================================================================== *)

(** The seven cells [fluidprop_alltransprops] writes through its pointer
    arguments, in the order of its parameters: the viscosity and its two
    derivatives, the conductivity and its two derivatives, the surface
    tension. *)
Record TransProps (D : Type) : Type := mkTransProps {
  eta : D;
  deta_dT : D;
  deta_drho : D;
  lambda : D;
  dlambda_dT : D;
  dlambda_drho : D;
  sigma : D
}.

(** The FluidProp library ([fluidprop.h]) over its own state [FP]: the
    property query, given the input mode, [T] and [rho], and the message of
    the last error. *)
Class FluidPropLib (D FP : Type) : Type := {
  fluidprop_alltransprops : string -> D -> D -> FP -> TransProps D * FP;
  fluidprop_geterror : FP -> string
}.

(** The [%f] conversion of [printf]. *)
Class PrintfDouble (D : Type) : Type := {
  fmt_f : D -> string
}.

(** What the foreign calls act on: the state of FluidProp and the standard
    output. *)
Record World (FP : Type) : Type := mkWorld {
  fluidprop : FP;
  stdout : string
}.

Definition IO (FP A : Type) : Type := World FP -> A * World FP.

Definition ret {FP A : Type} (a : A) : IO FP A := fun w => (a, w).

Definition bind {FP A B : Type} (m : IO FP A) (k : A -> IO FP B) : IO FP B :=
  fun w => let (a, w') := m w in k a w'.

Declare Scope io_scope.
Delimit Scope io_scope with io.
Notation "x <- m ;; k" := (bind m (fun x => k))
  (at level 61, m at next level, right associativity) : io_scope.
Notation "m ;; k" := (bind m (fun _ => k))
  (at level 61, right associativity) : io_scope.

Definition nl : string := String (ascii_of_nat 10) EmptyString.

(** [strcmp]: zero exactly when the two strings are equal. *)
Definition strcmp (a b : string) : Z :=
  match String.compare a b with
  | Eq => 0
  | Lt => -1
  | Gt => 1
  end.

Section Foreign.
Context {D FP : Type} `{FluidPropLib D FP}.

Definition alltransprops (mode : string) (T rho : D) : IO FP (TransProps D) :=
  fun w =>
    let (r, fp') := fluidprop_alltransprops mode T rho (fluidprop w) in
    (r, {| fluidprop := fp'; stdout := stdout w |}).

Definition geterror : IO FP string :=
  fun w => (fluidprop_geterror (fluidprop w), w).

(** [printf], once its format is instantiated to the text [s]. *)
Definition printf (s : string) : IO FP unit :=
  fun w => (tt, {| fluidprop := fluidprop w; stdout := stdout w ++ s |}).
End Foreign.

(** ** [CFluidPropViscosity] *)
Module CFluidPropViscosity.
Section Class.
Context {D FP : Type} `{DoubleArith D} `{FluidPropLib D FP} `{PrintfDouble D}.
Local Open Scope io_scope.
Local Open Scope string_scope.

Record t : Type := mk {
  base : CViscosityModel.t D
}.

Definition Mu (this : t) : D := CViscosityModel.Mu (base this).
Definition dmudrho_T (this : t) : D := CViscosityModel.dmudrho_T (base this).
Definition dmudT_rho (this : t) : D := CViscosityModel.dmudT_rho (base this).

(** [CFluidPropViscosity::CFluidPropViscosity(void)] *)
Definition new_void : t := {| base := CViscosityModel.new_void |}.

(** [fluidprop_alltransprops("Td", T, rho, &Mu, &deta_dT, ...)], then the
    two [printf] when [strcmp(fluidprop_geterror(), "No errors")] is not
    zero. *)
Definition SetViscosity (this : t) (T rho : D) : IO FP t :=
  r <- alltransprops "Td" T rho ;;
  let this' := {| base := CViscosityModel.set_Mu (base this) (eta r) |} in
  e <- geterror ;;
  if (strcmp e "No errors" =? 0)%Z then ret this'
  else
    e' <- geterror ;;
    printf ("FluidProp error message: " ++ e' ++ nl) ;;
    printf ("T = " ++ fmt_f T ++ ", rho = " ++ fmt_f rho
            ++ ", mu = " ++ fmt_f (Mu this') ++ nl) ;;
    ret this'.

(** [fluidprop_alltransprops("Td", T, rho, &eta, &dmudT_rho, &dmudrho_T,
    ...)]; the second [printf] prints [dmudT_rho] twice. *)
Definition SetDerViscosity (this : t) (T rho : D) : IO FP t :=
  r <- alltransprops "Td" T rho ;;
  let b1 := CViscosityModel.set_dmudT_rho (base this) (deta_dT r) in
  let b2 := CViscosityModel.set_dmudrho_T b1 (deta_drho r) in
  let this' := {| base := b2 |} in
  e <- geterror ;;
  if (strcmp e "No errors" =? 0)%Z then ret this'
  else
    e' <- geterror ;;
    printf ("FluidProp error message: " ++ e' ++ nl) ;;
    printf ("T = " ++ fmt_f T ++ ", rho = " ++ fmt_f rho
            ++ ", dmudT_rho = " ++ fmt_f (dmudT_rho this')
            ++ ", dmudrho_dT = " ++ fmt_f (dmudT_rho this') ++ nl) ;;
    ret this'.
End Class.
Arguments t D : clear implicits.
End CFluidPropViscosity.

(* ===================================================================== *)
(** * Thermal conductivity models *)
(* ===================================================================== *)

(** ** [CConductivityModel]: the data members shared by every conductivity
    model *)
Module CConductivityModel.
Section Class.
Context {D : Type} `{DoubleArith D}.
Local Open Scope double_scope.

Record t : Type := mk {
  Kt : D;
  dktdrho_T : D;
  dktdT_rho : D
}.

(** [CConductivityModel::CConductivityModel(void)] *)
Definition new_void : t :=
  {| Kt := 0.0; dktdrho_T := 0.0; dktdT_rho := 0.0 |}.

Definition set_Kt (this : t) (v : D) : t :=
  {| Kt := v; dktdrho_T := dktdrho_T this; dktdT_rho := dktdT_rho this |}.

Definition set_dktdrho_T (this : t) (v : D) : t :=
  {| Kt := Kt this; dktdrho_T := v; dktdT_rho := dktdT_rho this |}.

Definition set_dktdT_rho (this : t) (v : D) : t :=
  {| Kt := Kt this; dktdrho_T := dktdrho_T this; dktdT_rho := v |}.
End Class.
Arguments t D : clear implicits.
End CConductivityModel.

(** ** [CConstantConductivity] *)
Module CConstantConductivity.
Section Class.
Context {D : Type} `{DoubleArith D}.
Local Open Scope double_scope.

Record t : Type := mk {
  base : CConductivityModel.t D
}.

Definition Kt (this : t) : D := CConductivityModel.Kt (base this).
Definition dktdrho_T (this : t) : D := CConductivityModel.dktdrho_T (base this).
Definition dktdT_rho (this : t) : D := CConductivityModel.dktdT_rho (base this).

(** [CConstantConductivity::CConstantConductivity(void)] *)
Definition new_void : t := {| base := CConductivityModel.new_void |}.

(** [CConstantConductivity::CConstantConductivity(double kt_const)] *)
Definition new (kt_const : D) : t :=
  let b0 := CConductivityModel.new_void in
  let b1 := CConductivityModel.set_Kt b0 kt_const in
  let b2 := CConductivityModel.set_dktdrho_T b1 0.0 in
  let b3 := CConductivityModel.set_dktdT_rho b2 0.0 in
  {| base := b3 |}.

(** Modelled from the spec: [transport_model.cpp] defines no evaluation
    method for [CConstantConductivity]; the ones it inherits from
    [CConductivityModel] are in [transport_model.hpp] and its inline file,
    which are missing.  The spec, 4.2: "Constant: Kt fixed at
    construction; both operations no-ops". *)
Definition SetConductivity (this : t) (T rho mu cp : D) : t := this.

(** Modelled from the spec: the inherited [SetDerConductivity], missing
    with [transport_model.hpp]; a no-op by the same sentence of the spec. *)
Definition SetDerConductivity
    (this : t) (T rho dmudrho_T dmudT_rho cp : D) : t := this.
End Class.
Arguments t D : clear implicits.
End CConstantConductivity.

(** ** [CConstantPrandtl] *)
Module CConstantPrandtl.
Section Class.
Context {D : Type} `{DoubleArith D}.
Local Open Scope double_scope.

Record t : Type := mk {
  base : CConductivityModel.t D;
  Pr_const : D
}.

Definition Kt (this : t) : D := CConductivityModel.Kt (base this).
Definition dktdrho_T (this : t) : D := CConductivityModel.dktdrho_T (base this).
Definition dktdT_rho (this : t) : D := CConductivityModel.dktdT_rho (base this).

Definition with_base (this : t) (b : CConductivityModel.t D) : t :=
  {| base := b; Pr_const := Pr_const this |}.

(** [CConstantPrandtl::CConstantPrandtl(double pr_const)].  The
    constructor without argument leaves [Pr_const] uninitialised and is
    not modelled. *)
Definition new (pr_const : D) : t :=
  {| base := CConductivityModel.new_void; Pr_const := pr_const |}.

(** [Kt = mu*cp/Pr_const;] *)
Definition SetConductivity (this : t) (T rho mu cp : D) : t :=
  with_base this
    (CConductivityModel.set_Kt (base this) (mu * cp / Pr_const this)).

(** [dktdrho_T = dmudrho_T*cp/Pr_const;
     dktdT_rho = dmudT_rho*cp/Pr_const;] *)
Definition SetDerConductivity
    (this : t) (T rho dmudrho_T dmudT_rho cp : D) : t :=
  let b1 :=
    CConductivityModel.set_dktdrho_T (base this)
      (dmudrho_T * cp / Pr_const this) in
  let b2 :=
    CConductivityModel.set_dktdT_rho b1 (dmudT_rho * cp / Pr_const this) in
  with_base this b2.
End Class.
Arguments t D : clear implicits.
End CConstantPrandtl.

(** ** [CFluidPropConductivity] *)
Module CFluidPropConductivity.
Section Class.
Context {D FP : Type} `{DoubleArith D} `{FluidPropLib D FP} `{PrintfDouble D}.
Local Open Scope io_scope.
Local Open Scope string_scope.

Record t : Type := mk {
  base : CConductivityModel.t D;
  Pr_const : D
}.

Definition Kt (this : t) : D := CConductivityModel.Kt (base this).
Definition dktdrho_T (this : t) : D := CConductivityModel.dktdrho_T (base this).
Definition dktdT_rho (this : t) : D := CConductivityModel.dktdT_rho (base this).

Definition with_base (this : t) (b : CConductivityModel.t D) : t :=
  {| base := b; Pr_const := Pr_const this |}.

(** [CFluidPropConductivity::CFluidPropConductivity(double pr_const)].
    The constructor without argument leaves [Pr_const] uninitialised and
    is not modelled. *)
Definition new (pr_const : D) : t :=
  {| base := CConductivityModel.new_void; Pr_const := pr_const |}.

(** [fluidprop_alltransprops("Td", T, rho, &eta, &deta_dT, &deta_drho,
    &Kt, ...)], then the two [printf] on an error. *)
Definition SetConductivity (this : t) (T rho mu cp : D) : IO FP t :=
  r <- alltransprops "Td" T rho ;;
  let this' :=
    with_base this (CConductivityModel.set_Kt (base this) (lambda r)) in
  e <- geterror ;;
  if (strcmp e "No errors" =? 0)%Z then ret this'
  else
    e' <- geterror ;;
    printf ("FluidProp error message: " ++ e' ++ nl) ;;
    printf ("T = " ++ fmt_f T ++ ", rho = " ++ fmt_f rho
            ++ ", Kt = " ++ fmt_f (Kt this') ++ nl) ;;
    ret this'.

(** [fluidprop_alltransprops("Td", T, rho, &eta, &deta_dT, &deta_drho,
    &lambda, &dktdT_rho, &dktdrho_T, &sigma)]; the second [printf] prints
    [dktdT_rho] twice. *)
Definition SetDerConductivity
    (this : t) (T rho dmudrho_T dmudT_rho cp : D) : IO FP t :=
  r <- alltransprops "Td" T rho ;;
  let b1 := CConductivityModel.set_dktdT_rho (base this) (dlambda_dT r) in
  let b2 := CConductivityModel.set_dktdrho_T b1 (dlambda_drho r) in
  let this' := with_base this b2 in
  e <- geterror ;;
  if (strcmp e "No errors" =? 0)%Z then ret this'
  else
    e' <- geterror ;;
    printf ("FluidProp error message: " ++ e' ++ nl) ;;
    printf ("T = " ++ fmt_f T ++ ", rho = " ++ fmt_f rho
            ++ ", dktdT_rho = " ++ fmt_f (dktdT_rho this')
            ++ ", dktdrho_dT = " ++ fmt_f (dktdT_rho this') ++ nl) ;;
    ret this'.
End Class.
Arguments t D : clear implicits.
End CFluidPropConductivity.

(* ===================================================================== *)
(** * The virtual interfaces and sequences of calls *)
(* ===================================================================== *)

(** The two evaluation methods of a viscosity model, as the solver calls
    them through a [CViscosityModel*]. *)
Class ViscosityModel (D FP M : Type) : Type := {
  viscosity_fields : M -> CViscosityModel.t D;
  SetViscosity : M -> D -> D -> IO FP M;
  SetDerViscosity : M -> D -> D -> IO FP M
}.

(** The two evaluation methods of a conductivity model. *)
Class ConductivityModel (D FP M : Type) : Type := {
  conductivity_fields : M -> CConductivityModel.t D;
  SetConductivity : M -> D -> D -> D -> D -> IO FP M;
  SetDerConductivity : M -> D -> D -> D -> D -> D -> IO FP M
}.

Inductive ViscosityCall (D : Type) : Type :=
| CallSetViscosity (T rho : D)
| CallSetDerViscosity (T rho : D).

Inductive ConductivityCall (D : Type) : Type :=
| CallSetConductivity (T rho mu cp : D)
| CallSetDerConductivity (T rho dmudrho_T dmudT_rho cp : D).

Section Calls.
Context {D FP : Type} `{DoubleArith D} `{FluidPropLib D FP} `{PrintfDouble D}.
Local Open Scope io_scope.

#[export] Instance CConstantViscosity_model
  : ViscosityModel D FP (CConstantViscosity.t D) := {
  viscosity_fields := @CConstantViscosity.base D;
  SetViscosity := fun this T rho =>
    ret (CConstantViscosity.SetViscosity this T rho);
  SetDerViscosity := fun this T rho =>
    ret (CConstantViscosity.SetDerViscosity this T rho)
}.

#[export] Instance CSutherland_model
  : ViscosityModel D FP (CSutherland.t D) := {
  viscosity_fields := @CSutherland.base D;
  SetViscosity := fun this T rho =>
    ret (CSutherland.SetViscosity this T rho);
  SetDerViscosity := fun this T rho =>
    ret (CSutherland.SetDerViscosity this T rho)
}.

#[export] Instance CFluidPropViscosity_model
  : ViscosityModel D FP (CFluidPropViscosity.t D) := {
  viscosity_fields := @CFluidPropViscosity.base D;
  SetViscosity := CFluidPropViscosity.SetViscosity;
  SetDerViscosity := CFluidPropViscosity.SetDerViscosity
}.

#[export] Instance CConstantConductivity_model
  : ConductivityModel D FP (CConstantConductivity.t D) := {
  conductivity_fields := @CConstantConductivity.base D;
  SetConductivity := fun this T rho mu cp =>
    ret (CConstantConductivity.SetConductivity this T rho mu cp);
  SetDerConductivity := fun this T rho dmudrho_T dmudT_rho cp =>
    ret (CConstantConductivity.SetDerConductivity
           this T rho dmudrho_T dmudT_rho cp)
}.

#[export] Instance CConstantPrandtl_model
  : ConductivityModel D FP (CConstantPrandtl.t D) := {
  conductivity_fields := @CConstantPrandtl.base D;
  SetConductivity := fun this T rho mu cp =>
    ret (CConstantPrandtl.SetConductivity this T rho mu cp);
  SetDerConductivity := fun this T rho dmudrho_T dmudT_rho cp =>
    ret (CConstantPrandtl.SetDerConductivity
           this T rho dmudrho_T dmudT_rho cp)
}.

#[export] Instance CFluidPropConductivity_model
  : ConductivityModel D FP (CFluidPropConductivity.t D) := {
  conductivity_fields := @CFluidPropConductivity.base D;
  SetConductivity := CFluidPropConductivity.SetConductivity;
  SetDerConductivity := CFluidPropConductivity.SetDerConductivity
}.

Definition viscosity_call {M : Type} `{ViscosityModel D FP M}
    (this : M) (c : ViscosityCall D) : IO FP M :=
  match c with
  | CallSetViscosity T rho => SetViscosity this T rho
  | CallSetDerViscosity T rho => SetDerViscosity this T rho
  end.

Definition conductivity_call {M : Type} `{ConductivityModel D FP M}
    (this : M) (c : ConductivityCall D) : IO FP M :=
  match c with
  | CallSetConductivity T rho mu cp => SetConductivity this T rho mu cp
  | CallSetDerConductivity T rho dmudrho_T dmudT_rho cp =>
      SetDerConductivity this T rho dmudrho_T dmudT_rho cp
  end.

(** The calls of [cs] made one after the other on the same object. *)
Fixpoint viscosity_calls {M : Type} `{ViscosityModel D FP M}
    (this : M) (cs : list (ViscosityCall D)) : IO FP M :=
  match cs with
  | [] => ret this
  | c :: cs' =>
      this' <- viscosity_call this c ;; viscosity_calls this' cs'
  end.

Fixpoint conductivity_calls {M : Type} `{ConductivityModel D FP M}
    (this : M) (cs : list (ConductivityCall D)) : IO FP M :=
  match cs with
  | [] => ret this
  | c :: cs' =>
      this' <- conductivity_call this c ;; conductivity_calls this' cs'
  end.
End Calls.


(* ===================================================================== *)
(** * The closed forms of the specification *)
(* ===================================================================== *)

Section ClosedForms.
Local Open Scope double_scope.

(** The Sutherland law as the specification writes it:
    [Mu = Mu_ref * (T/T_ref)^1.5 * (T_ref + S) / (T + S)]. *)
Definition spec_Mu (Mu_ref T_ref S T : xreal) : xreal :=
  Mu_ref * pow (T / T_ref) (Fin 1.5) * (T_ref + S) / (T + S).

(** Its temperature derivative as the specification writes it:
    [Mu_ref * [ 1.5*(T/T_ref)^0.5 * (T_ref+S)/(T+S)
                - (T/T_ref)^1.5 * (T_ref+S)/(T+S)^2 ]]. *)
Definition spec_dMudT (Mu_ref T_ref S T : xreal) : xreal :=
  Mu_ref
  * (Fin 1.5 * pow (T / T_ref) (Fin 0.5) * (T_ref + S) / (T + S)
     - pow (T / T_ref) (Fin 1.5) * (T_ref + S) / pow (T + S) (Fin 2)).
End ClosedForms.

(** A double that is a real number other than zero. *)
Definition finite_nonzero (x : xreal) : Prop :=
  match x with
  | Fin r => r <> 0%R
  | NaN => False
  end.

(** The viscosity [CSutherland::SetViscosity] stores, as a function of the
    temperature alone. *)
Definition Sutherland_Mu_of_T
    (this : CSutherland.t xreal) (rho : xreal) (T : R) : R :=
  xval (CSutherland.Mu (CSutherland.SetViscosity this (Fin T) rho)).

(* ===================================================================== *)
(** * A FluidProp that rejects every query *)
(* ===================================================================== *)

(** An instance of the library to run the FluidProp-backed models on: its
    state is the message of the last error; every query answers NaN in the
    seven cells and leaves the message ["Input out of range"]. *)
Definition rejecting_alltransprops
    (mode : string) (T rho : xreal) (fp : string)
  : TransProps xreal * string :=
  ({| eta := NaN; deta_dT := NaN; deta_drho := NaN; lambda := NaN;
      dlambda_dT := NaN; dlambda_drho := NaN; sigma := NaN |},
   "Input out of range"%string).

#[export] Instance rejecting_fluidprop : FluidPropLib xreal string := {
  fluidprop_alltransprops := rejecting_alltransprops;
  fluidprop_geterror := fun fp => fp
}.

(** A [%f] for [xreal], which cannot print the digits of a real number:
    ["nan"] for a NaN and the conversion itself for a real. *)
#[export] Instance xreal_printf : PrintfDouble xreal := {
  fmt_f := fun x =>
    match x with
    | NaN => "nan"%string
    | Fin _ => "%f"%string
    end
}.

(** The world before the first query. *)
Definition fresh_world : World string :=
  {| fluidprop := "No errors"%string; stdout := ""%string |}.

(* ===================================================================== *)
(** * What a sequence of calls leaves behind *)
(* ===================================================================== *)

Section LastCalls.
Context {D : Type}.

(** The arguments of the last [SetViscosity] of a sequence of calls. *)
Fixpoint last_SetViscosity (cs : list (ViscosityCall D)) : option (D * D) :=
  match cs with
  | [] => None
  | c :: cs' =>
      match last_SetViscosity cs', c with
      | Some a, _ => Some a
      | None, CallSetViscosity T rho => Some (T, rho)
      | None, CallSetDerViscosity _ _ => None
      end
  end.

(** The arguments of the last [SetDerViscosity] of a sequence of calls. *)
Fixpoint last_SetDerViscosity (cs : list (ViscosityCall D)) : option (D * D) :=
  match cs with
  | [] => None
  | c :: cs' =>
      match last_SetDerViscosity cs', c with
      | Some a, _ => Some a
      | None, CallSetDerViscosity T rho => Some (T, rho)
      | None, CallSetViscosity _ _ => None
      end
  end.

(** The arguments of the last [SetConductivity] of a sequence of calls. *)
Fixpoint last_SetConductivity (cs : list (ConductivityCall D))
  : option (D * D * D * D) :=
  match cs with
  | [] => None
  | c :: cs' =>
      match last_SetConductivity cs', c with
      | Some a, _ => Some a
      | None, CallSetConductivity T rho mu cp => Some (T, rho, mu, cp)
      | None, CallSetDerConductivity _ _ _ _ _ => None
      end
  end.

(** The arguments of the last [SetDerConductivity] of a sequence of
    calls. *)
Fixpoint last_SetDerConductivity (cs : list (ConductivityCall D))
  : option (D * D * D * D * D) :=
  match cs with
  | [] => None
  | c :: cs' =>
      match last_SetDerConductivity cs', c with
      | Some a, _ => Some a
      | None, CallSetDerConductivity T rho dr dT cp =>
          Some (T, rho, dr, dT, cp)
      | None, CallSetConductivity _ _ _ _ => None
      end
  end.
End LastCalls.

Section LastCallsOnly.
Context {D : Type} `{DoubleArith D}.

(** A Sutherland model on which only the last call of each method of a
    sequence is made. *)
Definition Sutherland_last_calls
    (this : CSutherland.t D) (cs : list (ViscosityCall D)) : CSutherland.t D :=
  let this1 :=
    match last_SetViscosity cs with
    | Some (T, rho) => CSutherland.SetViscosity this T rho
    | None => this
    end in
  match last_SetDerViscosity cs with
  | Some (T, rho) => CSutherland.SetDerViscosity this1 T rho
  | None => this1
  end.

(** A Constant-Prandtl model on which only the last call of each method of
    a sequence is made. *)
Definition ConstantPrandtl_last_calls
    (this : CConstantPrandtl.t D) (cs : list (ConductivityCall D))
  : CConstantPrandtl.t D :=
  let this1 :=
    match last_SetConductivity cs with
    | Some (T, rho, mu, cp) => CConstantPrandtl.SetConductivity this T rho mu cp
    | None => this
    end in
  match last_SetDerConductivity cs with
  | Some (T, rho, dr, dT, cp) =>
      CConstantPrandtl.SetDerConductivity this1 T rho dr dT cp
  | None => this1
  end.
End LastCallsOnly.

Section Queries.
Context {D FP : Type} `{FluidPropLib D FP}.

(** The state of FluidProp after the one query, in mode ["Td"], that a call
    of a viscosity method makes. *)
Definition viscosity_query (fp : FP) (c : ViscosityCall D) : FP :=
  match c with
  | CallSetViscosity T rho
  | CallSetDerViscosity T rho =>
      snd (fluidprop_alltransprops "Td" T rho fp)
  end.

(** The same for a call of a conductivity method. *)
Definition conductivity_query (fp : FP) (c : ConductivityCall D) : FP :=
  match c with
  | CallSetConductivity T rho _ _
  | CallSetDerConductivity T rho _ _ _ =>
      snd (fluidprop_alltransprops "Td" T rho fp)
  end.
End Queries.



(** A FluidProp without state that answers every query with the transport
    properties of air at rest and never reports an error. *)
#[export] Instance accepting_fluidprop : FluidPropLib xreal unit := {
  fluidprop_alltransprops := fun mode T rho fp =>
    ({| eta := Fin 1.8e-5; deta_dT := Fin 0; deta_drho := Fin 0;
        lambda := Fin 0.026; dlambda_dT := Fin 0; dlambda_drho := Fin 0;
        sigma := Fin 0 |}, tt);
  fluidprop_geterror := fun fp => "No errors"%string
}.

(* ===================================================================== *)
(** * Properties that hold in every arithmetic *)
(* ===================================================================== *)

Section Generic.
Context {D FP : Type} `{DoubleArith D} `{FluidPropLib D FP} `{PrintfDouble D}.
Local Open Scope double_scope.

(** Unfolds the sequencing of foreign calls down to the two case analyses a
    FluidProp-backed method makes: on the answer of the library and on the
    comparison of its error message. *)
Ltac run_io :=
  cbv [bind ret alltransprops geterror printf];
  repeat match goal with
  | |- context [fluidprop_alltransprops ?m ?T ?r ?s] =>
      destruct (fluidprop_alltransprops m T r s)
  | |- context [Z.eqb ?a ?b] => destruct (Z.eqb a b)
  end; cbn.

(** ** Sequences of calls on the pure models *)

Lemma Sutherland_calls_parameters (cs : list (ViscosityCall D)) :
  forall (this : CSutherland.t D) (w : World FP),
    let this' := fst (viscosity_calls this cs w) in
    CSutherland.Mu_ref this' = CSutherland.Mu_ref this
    /\ CSutherland.T_ref this' = CSutherland.T_ref this
    /\ CSutherland.S this' = CSutherland.S this.
Proof.
  induction cs as [|c cs IH]; intros this w; [cbn; auto|].
  destruct c as [T rho|T rho]; cbn;
    match goal with
    | |- context [viscosity_calls ?m cs w] =>
        specialize (IH m w); cbn in IH; exact IH
    end.
Qed.

Lemma Sutherland_calls_dmudrho_T (cs : list (ViscosityCall D)) :
  forall (this : CSutherland.t D) (w : World FP),
    CSutherland.dmudrho_T this = 0.0 ->
    CSutherland.dmudrho_T (fst (viscosity_calls this cs w)) = 0.0.
Proof.
  induction cs as [|c cs IH]; intros this w Hzero; [exact Hzero|].
  destruct c as [T rho|T rho]; cbn;
    match goal with
    | |- context [viscosity_calls ?m cs w] => apply (IH m w)
    end.
  - exact Hzero.
  - reflexivity.
Qed.

Lemma ConstantPrandtl_calls_parameters (cs : list (ConductivityCall D)) :
  forall (this : CConstantPrandtl.t D) (w : World FP),
    CConstantPrandtl.Pr_const (fst (conductivity_calls this cs w))
    = CConstantPrandtl.Pr_const this.
Proof.
  induction cs as [|c cs IH]; intros this w; [reflexivity|].
  destruct c; cbn;
    match goal with
    | |- context [conductivity_calls ?m cs w] => exact (IH m w)
    end.
Qed.

Lemma ConstantViscosity_calls (cs : list (ViscosityCall D)) :
  forall (this : CConstantViscosity.t D) (w : World FP),
    viscosity_calls this cs w = (this, w).
Proof.
  induction cs as [|c cs IH]; intros this w; [reflexivity|].
  destruct c; cbn; apply IH.
Qed.

Lemma ConstantConductivity_calls (cs : list (ConductivityCall D)) :
  forall (this : CConstantConductivity.t D) (w : World FP),
    conductivity_calls this cs w = (this, w).
Proof.
  induction cs as [|c cs IH]; intros this w; [reflexivity|].
  destruct c; cbn; apply IH.
Qed.

(** ** The FluidProp-backed conductivity keeps [Pr_const] *)

Lemma FluidPropConductivity_call_parameters
    (this : CFluidPropConductivity.t D) (c : ConductivityCall D)
    (w : World FP) :
  CFluidPropConductivity.Pr_const (fst (conductivity_call this c w))
  = CFluidPropConductivity.Pr_const this.
Proof.
  destruct c; cbn;
    [unfold CFluidPropConductivity.SetConductivity
    |unfold CFluidPropConductivity.SetDerConductivity];
    run_io; reflexivity.
Qed.

Lemma FluidPropConductivity_calls_parameters
    (cs : list (ConductivityCall D)) :
  forall (this : CFluidPropConductivity.t D) (w : World FP),
    CFluidPropConductivity.Pr_const (fst (conductivity_calls this cs w))
    = CFluidPropConductivity.Pr_const this.
Proof.
  induction cs as [|c cs IH]; intros this w; [reflexivity|].
  cbn [conductivity_calls]. unfold bind.
  pose proof (FluidPropConductivity_call_parameters this c w) as Hc.
  destruct (conductivity_call this c w) as [this1 w1]. cbn in Hc.
  rewrite IH. exact Hc.
Qed.

(** ** What the analytic models store *)

Lemma ConstantPrandtl_SetConductivity_fields
    (this : CConstantPrandtl.t D) (T rho mu cp : D) :
  let this' := CConstantPrandtl.SetConductivity this T rho mu cp in
  CConstantPrandtl.Kt this' = mu * cp / CConstantPrandtl.Pr_const this
  /\ CConstantPrandtl.dktdrho_T this' = CConstantPrandtl.dktdrho_T this
  /\ CConstantPrandtl.dktdT_rho this' = CConstantPrandtl.dktdT_rho this
  /\ CConstantPrandtl.Pr_const this' = CConstantPrandtl.Pr_const this.
Proof. cbn. repeat split. Qed.

Lemma ConstantPrandtl_SetDerConductivity_fields
    (this : CConstantPrandtl.t D) (T rho dmudrho_T dmudT_rho cp : D) :
  let this' :=
    CConstantPrandtl.SetDerConductivity this T rho dmudrho_T dmudT_rho cp in
  CConstantPrandtl.dktdrho_T this'
  = dmudrho_T * cp / CConstantPrandtl.Pr_const this
  /\ CConstantPrandtl.dktdT_rho this'
     = dmudT_rho * cp / CConstantPrandtl.Pr_const this
  /\ CConstantPrandtl.Kt this' = CConstantPrandtl.Kt this
  /\ CConstantPrandtl.Pr_const this' = CConstantPrandtl.Pr_const this.
Proof. cbn. repeat split. Qed.

(** C5.  A Constant-Prandtl model constructed with [Pr], after any calls:
    [SetConductivity] stores [Kt = mu*cp/Pr], and [SetDerConductivity]
    stores [dktdrho_T = dmudrho_T*cp/Pr] and [dktdT_rho = dmudT_rho*cp/Pr],
    whatever [T], [rho], [mu], [cp] and the viscosity derivatives are. *)
Theorem ConstantPrandtl_stores_scaled_viscosity
    (Pr : D) (cs : list (ConductivityCall D)) (w : World FP) :
  let this := fst (conductivity_calls (CConstantPrandtl.new Pr) cs w) in
  (forall T rho mu cp : D,
      CConstantPrandtl.Kt (CConstantPrandtl.SetConductivity this T rho mu cp)
      = mu * cp / Pr)
  /\ (forall T rho dmudrho_T dmudT_rho cp : D,
      let this' :=
        CConstantPrandtl.SetDerConductivity
          this T rho dmudrho_T dmudT_rho cp in
      CConstantPrandtl.dktdrho_T this' = dmudrho_T * cp / Pr
      /\ CConstantPrandtl.dktdT_rho this' = dmudT_rho * cp / Pr).
Proof.
  intros this.
  assert (HPr : CConstantPrandtl.Pr_const this = Pr)
    by apply ConstantPrandtl_calls_parameters.
  split.
  - intros T rho mu cp.
    destruct (ConstantPrandtl_SetConductivity_fields this T rho mu cp)
      as [HKt _].
    rewrite HKt, HPr. reflexivity.
  - intros T rho dr dT cp this'.
    destruct (ConstantPrandtl_SetDerConductivity_fields this T rho dr dT cp)
      as (Hr & HT & _).
    subst this'. rewrite Hr, HT, HPr. split; reflexivity.
Qed.

(** C6.  [CSutherland::SetDerViscosity] stores [0.0] in [dmudrho_T], for
    every object, [T] and [rho]; and whatever calls follow, [dmudrho_T] is
    still [0.0]. *)
Theorem Sutherland_dmudrho_T_is_zero
    (this : CSutherland.t D) (T rho : D)
    (cs : list (ViscosityCall D)) (w : World FP) :
  let this' := CSutherland.SetDerViscosity this T rho in
  CSutherland.dmudrho_T this' = 0.0
  /\ CSutherland.dmudrho_T (fst (viscosity_calls this' cs w)) = 0.0.
Proof.
  intros this'.
  assert (Hzero : CSutherland.dmudrho_T this' = 0.0) by reflexivity.
  split; [exact Hzero|].
  apply Sutherland_calls_dmudrho_T. exact Hzero.
Qed.

(** C7.  A Constant viscosity (conductivity) model constructed with a
    value: each evaluation call returns the object and the world as they
    were, and after any sequence of calls [Mu] ([Kt]) is the value of the
    construction and both derivative fields are [0.0]. *)
Theorem Constant_models_evaluate_nothing :
  (forall (this : CConstantViscosity.t D) (c : ViscosityCall D)
          (w : World FP),
      viscosity_call this c w = (this, w))
  /\ (forall (mu_const : D) (cs : list (ViscosityCall D)) (w : World FP),
      let this := fst (viscosity_calls (CConstantViscosity.new mu_const) cs w) in
      CConstantViscosity.Mu this = mu_const
      /\ CConstantViscosity.dmudrho_T this = 0.0
      /\ CConstantViscosity.dmudT_rho this = 0.0)
  /\ (forall (this : CConstantConductivity.t D) (c : ConductivityCall D)
             (w : World FP),
      conductivity_call this c w = (this, w))
  /\ (forall (kt_const : D) (cs : list (ConductivityCall D)) (w : World FP),
      let this :=
        fst (conductivity_calls (CConstantConductivity.new kt_const) cs w) in
      CConstantConductivity.Kt this = kt_const
      /\ CConstantConductivity.dktdrho_T this = 0.0
      /\ CConstantConductivity.dktdT_rho this = 0.0).
Proof.
  repeat split.
  - intros this [T rho|T rho] w; reflexivity.
  - rewrite ConstantViscosity_calls. reflexivity.
  - rewrite ConstantViscosity_calls. reflexivity.
  - rewrite ConstantViscosity_calls. reflexivity.
  - intros this [T rho mu cp|T rho dr dT cp] w; reflexivity.
  - rewrite ConstantConductivity_calls. reflexivity.
  - rewrite ConstantConductivity_calls. reflexivity.
  - rewrite ConstantConductivity_calls. reflexivity.
Qed.

(** C8.  The parameters given to a constructor are the parameters of the
    object after any sequence of evaluation calls: [Mu_ref], [T_ref] and
    [S] of a Sutherland model, [Pr_const] of a Constant-Prandtl and of a
    FluidProp conductivity model, the value of a Constant viscosity and of
    a Constant conductivity model. *)
Theorem parameters_survive_calls :
  (forall (mu_ref t_ref s : D) (cs : list (ViscosityCall D)) (w : World FP),
      let this := fst (viscosity_calls (CSutherland.new mu_ref t_ref s) cs w) in
      CSutherland.Mu_ref this = mu_ref
      /\ CSutherland.T_ref this = t_ref
      /\ CSutherland.S this = s)
  /\ (forall (pr : D) (cs : list (ConductivityCall D)) (w : World FP),
      CConstantPrandtl.Pr_const
        (fst (conductivity_calls (CConstantPrandtl.new pr) cs w)) = pr)
  /\ (forall (pr : D) (cs : list (ConductivityCall D)) (w : World FP),
      CFluidPropConductivity.Pr_const
        (fst (conductivity_calls (CFluidPropConductivity.new pr) cs w)) = pr)
  /\ (forall (mu_const : D) (cs : list (ViscosityCall D)) (w : World FP),
      CConstantViscosity.Mu
        (fst (viscosity_calls (CConstantViscosity.new mu_const) cs w))
      = mu_const)
  /\ (forall (kt_const : D) (cs : list (ConductivityCall D)) (w : World FP),
      CConstantConductivity.Kt
        (fst (conductivity_calls (CConstantConductivity.new kt_const) cs w))
      = kt_const).
Proof.
  split; [|split; [|split; [|split]]].
  - intros mu_ref t_ref s cs w.
    exact (Sutherland_calls_parameters cs (CSutherland.new mu_ref t_ref s) w).
  - intros pr cs w.
    exact (ConstantPrandtl_calls_parameters cs (CConstantPrandtl.new pr) w).
  - intros pr cs w.
    exact (FluidPropConductivity_calls_parameters
             cs (CFluidPropConductivity.new pr) w).
  - intros mu_const cs w. rewrite ConstantViscosity_calls. reflexivity.
  - intros kt_const cs w. rewrite ConstantConductivity_calls. reflexivity.
Qed.

(** C9.  On the Constant, Sutherland and Constant-Prandtl models, an
    evaluation method called a second time with the arguments of the first
    call returns the object the first call returned. *)
Theorem evaluation_twice_is_evaluation_once :
  (forall (this : CConstantViscosity.t D) (T rho : D),
      let once := CConstantViscosity.SetViscosity this T rho in
      CConstantViscosity.SetViscosity once T rho = once)
  /\ (forall (this : CConstantViscosity.t D) (T rho : D),
      let once := CConstantViscosity.SetDerViscosity this T rho in
      CConstantViscosity.SetDerViscosity once T rho = once)
  /\ (forall (this : CSutherland.t D) (T rho : D),
      let once := CSutherland.SetViscosity this T rho in
      CSutherland.SetViscosity once T rho = once)
  /\ (forall (this : CSutherland.t D) (T rho : D),
      let once := CSutherland.SetDerViscosity this T rho in
      CSutherland.SetDerViscosity once T rho = once)
  /\ (forall (this : CConstantConductivity.t D) (T rho mu cp : D),
      let once := CConstantConductivity.SetConductivity this T rho mu cp in
      CConstantConductivity.SetConductivity once T rho mu cp = once)
  /\ (forall (this : CConstantConductivity.t D) (T rho dr dT cp : D),
      let once :=
        CConstantConductivity.SetDerConductivity this T rho dr dT cp in
      CConstantConductivity.SetDerConductivity once T rho dr dT cp = once)
  /\ (forall (this : CConstantPrandtl.t D) (T rho mu cp : D),
      let once := CConstantPrandtl.SetConductivity this T rho mu cp in
      CConstantPrandtl.SetConductivity once T rho mu cp = once)
  /\ (forall (this : CConstantPrandtl.t D) (T rho dr dT cp : D),
      let once := CConstantPrandtl.SetDerConductivity this T rho dr dT cp in
      CConstantPrandtl.SetDerConductivity once T rho dr dT cp = once).
Proof. repeat split. Qed.

(** C10.  The fields a Constant-Prandtl model stores do not depend on [T]
    and [rho]: two objects with the same [Pr_const], called with the same
    [mu] and [cp] (the same viscosity derivatives and [cp]) and any two
    pairs [T], [rho], store the same [Kt] (the same two derivatives). *)
Theorem ConstantPrandtl_ignores_T_rho
    (this1 this2 : CConstantPrandtl.t D) (T1 rho1 T2 rho2 : D)
    (HPr : CConstantPrandtl.Pr_const this1 = CConstantPrandtl.Pr_const this2) :
  (forall mu cp : D,
      CConstantPrandtl.Kt (CConstantPrandtl.SetConductivity this1 T1 rho1 mu cp)
      = CConstantPrandtl.Kt
          (CConstantPrandtl.SetConductivity this2 T2 rho2 mu cp))
  /\ (forall dmudrho_T dmudT_rho cp : D,
      let a :=
        CConstantPrandtl.SetDerConductivity
          this1 T1 rho1 dmudrho_T dmudT_rho cp in
      let b :=
        CConstantPrandtl.SetDerConductivity
          this2 T2 rho2 dmudrho_T dmudT_rho cp in
      CConstantPrandtl.dktdrho_T a = CConstantPrandtl.dktdrho_T b
      /\ CConstantPrandtl.dktdT_rho a = CConstantPrandtl.dktdT_rho b).
Proof.
  split.
  - intros mu cp.
    destruct (ConstantPrandtl_SetConductivity_fields this1 T1 rho1 mu cp)
      as [Ea _].
    destruct (ConstantPrandtl_SetConductivity_fields this2 T2 rho2 mu cp)
      as [Eb _].
    rewrite Ea, Eb, HPr. reflexivity.
  - intros dr dT cp a b.
    destruct (ConstantPrandtl_SetDerConductivity_fields this1 T1 rho1 dr dT cp)
      as (Ea & Ea' & _).
    destruct (ConstantPrandtl_SetDerConductivity_fields this2 T2 rho2 dr dT cp)
      as (Eb & Eb' & _).
    subst a b. rewrite Ea, Ea', Eb, Eb', HPr. split; reflexivity.
Qed.

(** ** The FluidProp-backed models on an error of the library *)

Lemma strcmp_zero_iff (a b : string) : strcmp a b = 0%Z <-> a = b.
Proof.
  unfold strcmp. split.
  - intros Hz. apply String.compare_eq_iff.
    destruct (String.compare a b); [reflexivity|discriminate|discriminate].
  - intros ->.
    assert (Hrefl : String.compare b b = Eq).
    { induction b as [|c b IH]; cbn; [reflexivity|].
      assert (Hc : Ascii.compare c c = Eq).
      { unfold Ascii.compare. apply N.compare_refl. }
      rewrite Hc. exact IH. }
    rewrite Hrefl. reflexivity.
Qed.

Lemma strcmp_differs (a b : string) :
  a <> b -> (strcmp a b =? 0)%Z = false.
Proof.
  intros Hab. apply Z.eqb_neq. intros Hz. apply Hab.
  apply strcmp_zero_iff. exact Hz.
Qed.

(** Without an error nothing is printed: the standard output after
    [SetViscosity] is the standard output before. *)
Lemma FluidProp_success_prints_nothing
    (this : CFluidPropViscosity.t D) (T rho : D) (w : World FP) :
  fluidprop_geterror
    (snd (fluidprop_alltransprops "Td" T rho (fluidprop w)))
  = "No errors"%string ->
  stdout (snd (CFluidPropViscosity.SetViscosity this T rho w)) = stdout w.
Proof.
  intros He. apply strcmp_zero_iff in He.
  cbv [CFluidPropViscosity.SetViscosity bind ret alltransprops geterror
       printf].
  destruct (fluidprop_alltransprops "Td" T rho (fluidprop w)) as [r fp'].
  cbn in He |- *. rewrite He. reflexivity.
Qed.

(** C4.  When the message of FluidProp after the query is not
    ["No errors"], each of the four FluidProp-backed methods returns: the
    object it returns holds the values the library answered in the fields
    the method writes and the former values in the others, and the standard
    output has grown by the line of the error message and one more line. *)
Theorem FluidProp_error_is_printed_and_ignored
    (T rho : D) (w : World FP) :
  let answer := fluidprop_alltransprops "Td" T rho (fluidprop w) in
  let r := fst answer in
  let e := fluidprop_geterror (snd answer) in
  let logged (line : string) : World FP :=
    {| fluidprop := snd answer;
       stdout :=
         ((stdout w ++ ("FluidProp error message: " ++ e ++ nl)) ++ line)%string
    |} in
  e <> "No errors"%string ->
  (forall this : CFluidPropViscosity.t D,
      exists this' line,
        CFluidPropViscosity.SetViscosity this T rho w = (this', logged line)
        /\ CFluidPropViscosity.Mu this' = eta r
        /\ CFluidPropViscosity.dmudrho_T this'
           = CFluidPropViscosity.dmudrho_T this
        /\ CFluidPropViscosity.dmudT_rho this'
           = CFluidPropViscosity.dmudT_rho this)
  /\ (forall this : CFluidPropViscosity.t D,
      exists this' line,
        CFluidPropViscosity.SetDerViscosity this T rho w = (this', logged line)
        /\ CFluidPropViscosity.dmudT_rho this' = deta_dT r
        /\ CFluidPropViscosity.dmudrho_T this' = deta_drho r
        /\ CFluidPropViscosity.Mu this' = CFluidPropViscosity.Mu this)
  /\ (forall (this : CFluidPropConductivity.t D) (mu cp : D),
      exists this' line,
        CFluidPropConductivity.SetConductivity this T rho mu cp w
        = (this', logged line)
        /\ CFluidPropConductivity.Kt this' = lambda r
        /\ CFluidPropConductivity.dktdrho_T this'
           = CFluidPropConductivity.dktdrho_T this
        /\ CFluidPropConductivity.dktdT_rho this'
           = CFluidPropConductivity.dktdT_rho this
        /\ CFluidPropConductivity.Pr_const this'
           = CFluidPropConductivity.Pr_const this)
  /\ (forall (this : CFluidPropConductivity.t D) (dmudrho_T dmudT_rho cp : D),
      exists this' line,
        CFluidPropConductivity.SetDerConductivity
          this T rho dmudrho_T dmudT_rho cp w
        = (this', logged line)
        /\ CFluidPropConductivity.dktdT_rho this' = dlambda_dT r
        /\ CFluidPropConductivity.dktdrho_T this' = dlambda_drho r
        /\ CFluidPropConductivity.Kt this' = CFluidPropConductivity.Kt this
        /\ CFluidPropConductivity.Pr_const this'
           = CFluidPropConductivity.Pr_const this).
Proof.
  intros answer r e logged He.
  apply strcmp_differs in He.
  subst logged e r answer.
  repeat split; intros;
    cbv [CFluidPropViscosity.SetViscosity CFluidPropViscosity.SetDerViscosity
         CFluidPropConductivity.SetConductivity
         CFluidPropConductivity.SetDerConductivity
         bind ret alltransprops geterror printf];
    destruct (fluidprop_alltransprops "Td" T rho (fluidprop w)) as [r fp'];
    cbn in He |- *; rewrite He;
    eexists; eexists; (split; [reflexivity|]); cbn; repeat split.
Qed.

End Generic.

(* ===================================================================== *)
(** * Properties in exact arithmetic *)
(* ===================================================================== *)

Section Exact.
Local Open Scope R_scope.

(** ** The literals and [pow] at [xreal] *)

Lemma three_halves : ddiv (dlit 3) (dlit 2) = Fin (3 / 2).
Proof. cbn. destruct (Req_dec_T 2 0) as [E|_]; [lra|reflexivity]. Qed.

Lemma one_half : ddiv (dlit 1) (dlit 2) = Fin (1 / 2).
Proof. cbn. destruct (Req_dec_T 2 0) as [E|_]; [lra|reflexivity]. Qed.

Lemma Rpower_one_base (y : R) : Rpower 1 y = 1.
Proof. unfold Rpower. rewrite ln_1, Rmult_0_r. apply exp_0. Qed.

Lemma Rpower_two (a : R) : 0 < a -> Rpower a 2 = a * a.
Proof.
  intros Ha. replace 2 with (1 + 1) by lra.
  rewrite Rpower_plus, Rpower_1 by assumption. reflexivity.
Qed.

Lemma Rpow_positive (x y : R) : 0 < x -> Rpow x y = Fin (Rpower x y).
Proof. intros Hx. unfold Rpow. destruct (Rlt_dec 0 x); [reflexivity|lra]. Qed.

Lemma xpow_two (y : xreal) : xpow y (Fin 2) = xlift2 Rmult y y.
Proof.
  destruct y as [|a]; cbn.
  - destruct (Req_dec_T 2 0); [lra|reflexivity].
  - unfold Rpow. destruct (Rlt_dec 0 a) as [Hpos|Hnpos].
    + rewrite Rpower_two by assumption. reflexivity.
    + destruct (Req_dec_T a 0) as [->|Hnz].
      * destruct (Rlt_dec 0 2); [|lra]. f_equal. lra.
      * assert (HI : Int_part 2 = 2%Z).
        { symmetry. apply Int_part_spec. lra. }
        rewrite HI. destruct (Req_dec_T 2 2) as [_|Hne]; [|lra].
        f_equal. unfold powerRZ. simpl. lra.
Qed.

(** ** The stored values against the closed forms of the specification *)

Lemma Sutherland_Mu_grouping (m p x y : xreal) :
  dmul (dmul m p) (ddiv x y) = ddiv (dmul (dmul m p) x) y.
Proof.
  destruct m as [|m], p as [|p], x as [|x], y as [|y]; cbn; try reflexivity;
    destruct (Req_dec_T y 0); try reflexivity.
  f_equal. field. assumption.
Qed.

Lemma Sutherland_dMudT_grouping (m k p q x y : xreal) :
  dmul m (dsub (dmul (dmul k p) (ddiv x y)) (ddiv (ddiv (dmul q x) y) y))
  = dmul m (dsub (ddiv (dmul (dmul k p) x) y)
                 (ddiv (dmul q x) (pow y (Fin 2)))).
Proof.
  cbn [pow xreal_arith]. rewrite xpow_two.
  destruct m as [|m], k as [|k], p as [|p], q as [|q], x as [|x], y as [|y];
    cbn; try reflexivity;
    repeat (destruct (Req_dec_T _ 0); cbn); try reflexivity; try nra.
  f_equal. field. assumption.
Qed.

(** ** The viscosity of Sutherland's law as a real function of [T] *)

(** Evaluates the operations of [xreal] on finite operands, taking the
    branch of a division whose divisor the context shows to be non-zero. *)
Ltac xreal_nonzero :=
  repeat (cbn [xlift2 xdiv xpow xval];
          match goal with
          | |- context [Req_dec_T ?a 0] =>
              destruct (Req_dec_T a 0) as [?|_];
              [exfalso; (contradiction || lra)|]
          end);
  cbn [xlift2 xdiv xpow xval].

Section SutherlandReal.
Variables (this : CSutherland.t xreal) (rho : xreal) (m tr s : R).
Hypothesis HMu_ref : CSutherland.Mu_ref this = Fin m.
Hypothesis HT_ref : CSutherland.T_ref this = Fin tr.
Hypothesis HS : CSutherland.S this = Fin s.
Hypothesis Htr : 0 < tr.

Lemma Sutherland_Mu_of_T_real (T : R) :
  0 < T -> T + s <> 0 ->
  Sutherland_Mu_of_T this rho T
  = m * Rpower (T / tr) (3 / 2) * ((tr + s) / (T + s)).
Proof.
  intros HT HTs.
  cbv [Sutherland_Mu_of_T CSutherland.Mu CSutherland.SetViscosity
       CSutherland.with_base CSutherland.base
       CViscosityModel.set_Mu CViscosityModel.Mu].
  rewrite HMu_ref, HT_ref, HS, three_halves.
  cbn [dmul dadd ddiv pow xreal_arith xlift2 xdiv xpow].
  xreal_nonzero.
  rewrite Rpow_positive by (apply Rdiv_lt_0_compat; assumption).
  xreal_nonzero. reflexivity.
Qed.

Lemma Sutherland_dmudT_rho_real (T : R) :
  0 < T -> T + s <> 0 ->
  CSutherland.dmudT_rho (CSutherland.SetDerViscosity this (Fin T) rho)
  = Fin (m * (3 / 2 * Rpower (T / tr) (1 / 2) * ((tr + s) / (T + s))
              - Rpower (T / tr) (3 / 2) * (tr + s) / (T + s) / (T + s))).
Proof.
  intros HT HTs.
  cbv [CSutherland.dmudT_rho CSutherland.SetDerViscosity
       CSutherland.with_base CSutherland.base
       CViscosityModel.set_dmudT_rho CViscosityModel.set_dmudrho_T
       CViscosityModel.dmudT_rho].
  rewrite HMu_ref, HT_ref, HS, three_halves, one_half.
  cbn [dmul dadd dsub ddiv pow xreal_arith xlift2 xdiv xpow].
  xreal_nonzero.
  rewrite !Rpow_positive by (apply Rdiv_lt_0_compat; assumption).
  xreal_nonzero. reflexivity.
Qed.

(** The derivative of the stored viscosity with respect to [T]: the first
    term carries the factor [1/T_ref] of the inner function [T/T_ref]. *)
Lemma Sutherland_Mu_of_T_derivative (T : R) :
  0 < T -> T + s <> 0 ->
  derivable_pt_lim (Sutherland_Mu_of_T this rho) T
    (m * (3 / 2 * Rpower (T / tr) (1 / 2) / tr * ((tr + s) / (T + s))
          - Rpower (T / tr) (3 / 2) * (tr + s) / (T + s) / (T + s))).
Proof.
  intros HT HTs.
  pose (u := mult_real_fct (/ tr) id).
  pose (p := comp (fun x => Rpower x (3 / 2)) u).
  pose (q := (fct_cte (tr + s) / (id + fct_cte s))%F).
  pose (g := mult_real_fct m (p * q)%F).
  assert (Hu : derivable_pt_lim u T (/ tr * 1))
    by (apply derivable_pt_lim_scal, derivable_pt_lim_id).
  assert (HuT : u T = T / tr) by (unfold u, mult_real_fct, id; field; lra).
  assert (Hpos : 0 < u T)
    by (rewrite HuT; apply Rdiv_lt_0_compat; assumption).
  assert (Hp : derivable_pt_lim p T
                 (3 / 2 * Rpower (u T) (3 / 2 - 1) * (/ tr * 1))).
  { apply derivable_pt_lim_comp; [exact Hu|].
    apply derivable_pt_lim_power. exact Hpos. }
  assert (Hq : derivable_pt_lim q T
                 ((0 * (id + fct_cte s)%F T - (1 + 0) * fct_cte (tr + s) T)
                  / Rsqr ((id + fct_cte s)%F T))).
  { apply derivable_pt_lim_div.
    - apply derivable_pt_lim_const.
    - apply derivable_pt_lim_plus;
        [apply derivable_pt_lim_id|apply derivable_pt_lim_const].
    - unfold plus_fct, id, fct_cte. exact HTs. }
  pose proof (derivable_pt_lim_scal _ m _ _
                (derivable_pt_lim_mult _ _ _ _ _ Hp Hq)) as Hg.
  fold g in Hg.
  assert (Hloc : exists a b, a < T < b
            /\ forall z, a < z < b -> 0 < z /\ z + s <> 0).
  { destruct (Rlt_dec 0 (T + s)) as [Hgt|Hle].
    - exists (Rmax 0 (- s)), (T + 1). split.
      + split; [apply Rmax_lub_lt; lra|lra].
      + intros z [Hz _].
        pose proof (Rmax_l 0 (- s)). pose proof (Rmax_r 0 (- s)).
        split; lra.
    - exists 0, (- s). split; [lra|].
      intros z Hz. split; lra. }
  destruct Hloc as (a & b & Hab & Hin).
  apply derivable_pt_lim_locally_ext with (f := g) (a := a) (b := b);
    [exact Hab| |].
  - intros z Hz. destruct (Hin z Hz) as [Hz0 Hzs].
    rewrite Sutherland_Mu_of_T_real by assumption.
    unfold g, p, q, u, mult_real_fct, mult_fct, div_fct, plus_fct, comp,
      fct_cte, id.
    replace (/ tr * z) with (z / tr) by (field; lra).
    field. exact Hzs.
  - replace (3 / 2 - 1) with (1 / 2) in Hg by lra.
    rewrite HuT in Hg.
    replace (m * (3 / 2 * Rpower (T / tr) (1 / 2) / tr * ((tr + s) / (T + s))
                  - Rpower (T / tr) (3 / 2) * (tr + s) / (T + s) / (T + s)))
      with (m * (3 / 2 * Rpower (T / tr) (1 / 2) * (/ tr * 1) * q T
                 + p T * ((0 * (id + fct_cte s)%F T
                           - (1 + 0) * fct_cte (tr + s) T)
                          / Rsqr ((id + fct_cte s)%F T)))).
    + exact Hg.
    + unfold p, q, comp, div_fct, plus_fct, fct_cte, id, Rsqr.
      rewrite HuT. field. split; [exact HTs|lra].
Qed.

End SutherlandReal.

(** X16.  For [T_ref > 0], [T > 0] and [T + S <> 0], the value
    [SetDerViscosity] stores in [dmudT_rho] is the derivative with respect
    to [T] of the viscosity [SetViscosity] stores exactly when the missing
    factor [1/T_ref] does not matter: [T_ref] is [1], or the law is
    identically zero ([Mu_ref * (T_ref + S) = 0]). *)
Lemma Sutherland_dmudT_rho_derivative_iff
    (this : CSutherland.t xreal) (rho : xreal) (m tr s T : R) :
  CSutherland.Mu_ref this = Fin m ->
  CSutherland.T_ref this = Fin tr ->
  CSutherland.S this = Fin s ->
  0 < tr -> 0 < T -> T + s <> 0 ->
  derivable_pt_lim (Sutherland_Mu_of_T this rho) T
    (xval (CSutherland.dmudT_rho
             (CSutherland.SetDerViscosity this (Fin T) rho)))
  <-> (tr = 1 \/ m * (tr + s) = 0).
Proof.
  intros Hm Htr Hs Htr0 HT HTs.
  rewrite (Sutherland_dmudT_rho_real this rho Hm Htr Hs Htr0 HT HTs).
  cbn [xval].
  pose proof (Sutherland_Mu_of_T_derivative this rho Hm Htr Hs Htr0 HT HTs)
    as Hder.
  set (a := Rpower (T / tr) (1 / 2)) in *.
  set (b := Rpower (T / tr) (3 / 2)) in *.
  assert (Ha : 0 < a) by apply exp_pos.
  assert (Hgap :
    m * (3 / 2 * a * ((tr + s) / (T + s)) - b * (tr + s) / (T + s) / (T + s))
    - m * (3 / 2 * a / tr * ((tr + s) / (T + s))
           - b * (tr + s) / (T + s) / (T + s))
    = 3 / 2 * a / (T + s) * (m * (tr + s)) * ((tr - 1) / tr))
    by (field; split; [lra|exact HTs]).
  split.
  - intros Hcode.
    pose proof (uniqueness_limite _ _ _ _ Hcode Hder) as Heq.
    rewrite Heq, Rminus_diag in Hgap. symmetry in Hgap.
    apply Rmult_integral in Hgap. destruct Hgap as [Hgap|Hgap].
    + apply Rmult_integral in Hgap. destruct Hgap as [Hgap|Hgap].
      * exfalso. apply Rmult_integral in Hgap. destruct Hgap as [Hgap|Hgap].
        -- lra.
        -- apply Rinv_neq_0_compat in HTs. contradiction.
      * right. exact Hgap.
    + left. apply Rmult_integral in Hgap. destruct Hgap as [Hgap|Hgap].
      * lra.
      * assert (/ tr <> 0) by (apply Rinv_neq_0_compat; lra). contradiction.
  - intros Hor.
    match goal with
    | |- derivable_pt_lim _ _ ?l =>
        replace l
          with (m * (3 / 2 * a / tr * ((tr + s) / (T + s))
                     - b * (tr + s) / (T + s) / (T + s)));
        [exact Hder|]
    end.
    apply Rminus_diag_uniq_sym. rewrite Hgap.
    destruct Hor as [->|Hz].
    + field. exact HTs.
    + rewrite Hz. field. split; [lra|exact HTs].
Qed.

(** C1, where the code departs from the claim.  For the Sutherland model of
    air ([Mu_ref = 1.716e-5], [T_ref = 273.15], [S = 110.4]) at
    [T = 273.15]: [SetDerViscosity] stores [1.716e-5 * (3/2 - 1/383.55)] in
    [dmudT_rho], the derivative with respect to [T] of the viscosity
    [SetViscosity] stores is [1.716e-5 * (3/2/273.15 - 1/383.55)], and the
    stored value is not that derivative. *)
Theorem Sutherland_dmudT_rho_is_not_the_derivative :
  let this := CSutherland.new (Fin 1.716e-5) (Fin 273.15) (Fin 110.4) in
  forall rho : xreal,
    CSutherland.dmudT_rho (CSutherland.SetDerViscosity this (Fin 273.15) rho)
    = Fin (1.716e-5 * (3 / 2 - 1 / 383.55))
    /\ derivable_pt_lim (Sutherland_Mu_of_T this rho) 273.15
         (1.716e-5 * (3 / 2 / 273.15 - 1 / 383.55))
    /\ ~ derivable_pt_lim (Sutherland_Mu_of_T this rho) 273.15
           (1.716e-5 * (3 / 2 - 1 / 383.55)).
Proof.
  intros this rho.
  assert (Hone : 273.15 / 273.15 = 1) by (field; lra).
  assert (Hcode :
    CSutherland.dmudT_rho (CSutherland.SetDerViscosity this (Fin 273.15) rho)
    = Fin (1.716e-5 * (3 / 2 - 1 / 383.55))).
  { rewrite (@Sutherland_dmudT_rho_real
               this rho 1.716e-5 273.15 110.4 eq_refl eq_refl eq_refl)
      by lra.
    rewrite Hone, !Rpower_one_base. apply (f_equal Fin).
    replace (273.15 + 110.4) with 383.55 by lra. lra. }
  assert (Hder :
    derivable_pt_lim (Sutherland_Mu_of_T this rho) 273.15
      (1.716e-5 * (3 / 2 / 273.15 - 1 / 383.55))).
  { pose proof (@Sutherland_Mu_of_T_derivative
                  this rho 1.716e-5 273.15 110.4 eq_refl eq_refl eq_refl
                  ltac:(lra) 273.15 ltac:(lra) ltac:(lra)) as Hd.
    rewrite Hone, !Rpower_one_base in Hd.
    replace (1.716e-5 * (3 / 2 / 273.15 - 1 / 383.55))
      with (1.716e-5 * (3 / 2 * 1 / 273.15
                        * ((273.15 + 110.4) / (273.15 + 110.4))
                        - 1 * (273.15 + 110.4) / (273.15 + 110.4)
                          / (273.15 + 110.4)))
      by (replace (273.15 + 110.4) with 383.55 by lra; lra).
    exact Hd. }
  split; [exact Hcode|split; [exact Hder|]].
  intros Hbad.
  pose proof (uniqueness_limite _ _ _ _ Hbad Hder) as Heq.
  lra.
Qed.

(** C3.  [CSutherland::SetDerViscosity] stores in [dmudT_rho] the closed
    form of the specification,
    [Mu_ref*[1.5*(T/T_ref)^0.5*(T_ref+S)/(T+S) - (T/T_ref)^1.5*(T_ref+S)/(T+S)^2]],
    for every object, [T] and [rho]. *)
Theorem Sutherland_dmudT_rho_is_the_closed_form
    (this : CSutherland.t xreal) (T rho : xreal) :
  CSutherland.dmudT_rho (CSutherland.SetDerViscosity this T rho)
  = spec_dMudT (CSutherland.Mu_ref this) (CSutherland.T_ref this)
      (CSutherland.S this) T.
Proof.
  cbv [CSutherland.dmudT_rho CSutherland.SetDerViscosity
       CSutherland.with_base CSutherland.base
       CViscosityModel.set_dmudT_rho CViscosityModel.set_dmudrho_T
       CViscosityModel.dmudT_rho spec_dMudT].
  rewrite three_halves, one_half.
  replace 1.5 with (3 / 2) by lra. replace 0.5 with (1 / 2) by lra.
  apply Sutherland_dMudT_grouping.
Qed.

(** C2, amended.  [CSutherland::SetViscosity] stores in [Mu] the closed
    form of the specification, [Mu_ref*(T/T_ref)^1.5*(T_ref+S)/(T+S)], for
    every object, [T] and [rho]; at [T = T_ref], when [T_ref] and
    [T_ref + S] are real numbers other than zero, the stored [Mu] is
    [Mu_ref]. *)
Theorem Sutherland_Mu_is_the_closed_form
    (this : CSutherland.t xreal) (T rho : xreal) :
  let this' := CSutherland.SetViscosity this T rho in
  CSutherland.Mu this'
  = spec_Mu (CSutherland.Mu_ref this) (CSutherland.T_ref this)
      (CSutherland.S this) T
  /\ (T = CSutherland.T_ref this ->
      finite_nonzero (CSutherland.T_ref this) ->
      finite_nonzero (dadd (CSutherland.T_ref this) (CSutherland.S this)) ->
      CSutherland.Mu this' = CSutherland.Mu_ref this).
Proof.
  cbv [CSutherland.Mu CSutherland.SetViscosity
       CSutherland.with_base CSutherland.base
       CViscosityModel.set_Mu CViscosityModel.Mu spec_Mu].
  rewrite three_halves. split.
  - replace 1.5 with (3 / 2) by lra. apply Sutherland_Mu_grouping.
  - intros -> Htr Hsum.
    destruct (CSutherland.T_ref this) as [|tr]; [contradiction|].
    destruct (CSutherland.S this) as [|s]; [contradiction|].
    cbn in Htr, Hsum.
    cbn [dmul dadd ddiv pow xreal_arith]. xreal_nonzero.
    replace (tr / tr) with 1 by (field; exact Htr).
    rewrite Rpow_positive, Rpower_one_base by lra.
    destruct (CSutherland.Mu_ref this) as [|m]; [reflexivity|].
    xreal_nonzero. apply (f_equal Fin). field. exact Hsum.
Qed.

(** Without [T_ref <> 0] the stored [Mu] at [T = T_ref] need not be
    [Mu_ref]: for [Mu_ref = 1.716e-5], [T_ref = 0], [S = 110.4] and
    [T = T_ref], the sum [T_ref + S] is not zero, yet [T/T_ref] is [0.0/0.0]
    and the stored [Mu] is NaN. *)
Lemma Sutherland_Mu_at_T_ref_zero :
  finite_nonzero
    (dadd (CSutherland.T_ref
             (CSutherland.new (Fin 1.716e-5) (Fin 0) (Fin 110.4)))
          (CSutherland.S
             (CSutherland.new (Fin 1.716e-5) (Fin 0) (Fin 110.4))))
  /\ CSutherland.Mu
       (CSutherland.SetViscosity
          (CSutherland.new (Fin 1.716e-5) (Fin 0) (Fin 110.4))
          (CSutherland.T_ref
             (CSutherland.new (Fin 1.716e-5) (Fin 0) (Fin 110.4)))
          (Fin 1))
     = NaN
  /\ CSutherland.Mu
       (CSutherland.SetViscosity
          (CSutherland.new (Fin 1.716e-5) (Fin 0) (Fin 110.4))
          (CSutherland.T_ref
             (CSutherland.new (Fin 1.716e-5) (Fin 0) (Fin 110.4)))
          (Fin 1))
     <> CSutherland.Mu_ref
          (CSutherland.new (Fin 1.716e-5) (Fin 0) (Fin 110.4)).
Proof.
  assert (HMu :
    CSutherland.Mu
      (CSutherland.SetViscosity
         (CSutherland.new (Fin 1.716e-5) (Fin 0) (Fin 110.4))
         (Fin 0) (Fin 1)) = NaN).
  { cbv [CSutherland.Mu CSutherland.SetViscosity CSutherland.new
         CSutherland.with_base CSutherland.base CSutherland.Mu_ref
         CSutherland.T_ref CSutherland.S
         CViscosityModel.set_Mu CViscosityModel.Mu].
    rewrite three_halves.
    cbn [dmul dadd ddiv pow xreal_arith xlift2 xdiv].
    destruct (Req_dec_T 0 0) as [_|Hne]; [|contradiction].
    cbn [xpow]. destruct (Req_dec_T (3 / 2) 0) as [E|_]; [lra|].
    reflexivity. }
  split; [cbn; lra|]. split; [exact HMu|].
  cbn [CSutherland.T_ref CSutherland.new].
  rewrite HMu. cbn. discriminate.
Qed.

End Exact.

(* ===================================================================== *)
(** * The theorems with hypotheses, applied *)
(* ===================================================================== *)

(** The Sutherland model of air evaluated at its reference temperature,
    [T = T_ref = 273.15], stores [Mu_ref]. *)
Lemma Sutherland_Mu_at_T_ref_of_air :
  (Fin 273.15
   = CSutherland.T_ref (CSutherland.new (Fin 1.716e-5) (Fin 273.15) (Fin 110.4))
   /\ finite_nonzero (Fin 273.15)
   /\ finite_nonzero (dadd (Fin 273.15) (Fin 110.4)))
  /\ CSutherland.Mu
       (CSutherland.SetViscosity
          (CSutherland.new (Fin 1.716e-5) (Fin 273.15) (Fin 110.4))
          (Fin 273.15) (Fin 1.2))
     = Fin 1.716e-5.
Proof.
  assert (Ha : finite_nonzero (Fin 273.15)) by (cbn; lra).
  assert (Hb : finite_nonzero (dadd (Fin 273.15) (Fin 110.4))) by (cbn; lra).
  split; [split; [reflexivity|split; assumption]|].
  exact (proj2 (Sutherland_Mu_is_the_closed_form
                  (CSutherland.new (Fin 1.716e-5) (Fin 273.15) (Fin 110.4))
                  (Fin 273.15) (Fin 1.2))
           eq_refl Ha Hb).
Defined.

(** On the library that rejects every query, [SetViscosity] on a fresh
    object returns, with the NaN the library answered in [Mu] and the
    message on the standard output. *)
Lemma FluidProp_rejected_query_is_printed :
  fluidprop_geterror
    (snd (fluidprop_alltransprops "Td" (Fin 300) (Fin 1)
            (fluidprop fresh_world)))
  <> "No errors"%string
  /\ exists (this' : CFluidPropViscosity.t xreal) (line : string),
       CFluidPropViscosity.SetViscosity
         CFluidPropViscosity.new_void (Fin 300) (Fin 1) fresh_world
       = (this',
          {| fluidprop := "Input out of range"%string;
             stdout :=
               (("FluidProp error message: Input out of range" ++ nl)
                ++ line)%string |})
       /\ CFluidPropViscosity.Mu this' = NaN.
Proof.
  assert (He :
    fluidprop_geterror
      (snd (fluidprop_alltransprops "Td" (Fin 300) (Fin 1)
              (fluidprop fresh_world)))
    <> "No errors"%string) by discriminate.
  split; [exact He|].
  destruct (proj1 (FluidProp_error_is_printed_and_ignored
                     (Fin 300) (Fin 1) fresh_world He)
              CFluidPropViscosity.new_void)
    as (this' & line & Hrun & HMu & _).
  exists this', line. split; [exact Hrun|exact HMu].
Defined.

(** Two Constant-Prandtl models constructed with [Pr = 0.72], one of them
    already evaluated, store the same [Kt] at two different states [T],
    [rho]. *)
Lemma ConstantPrandtl_air_ignores_T_rho :
  CConstantPrandtl.Pr_const
    (CConstantPrandtl.SetConductivity
       (CConstantPrandtl.new (Fin 0.72)) (Fin 300) (Fin 1.2)
       (Fin 1.8e-5) (Fin 1004.5))
  = CConstantPrandtl.Pr_const (CConstantPrandtl.new (Fin 0.72))
  /\ CConstantPrandtl.Kt
       (CConstantPrandtl.SetConductivity
          (CConstantPrandtl.SetConductivity
             (CConstantPrandtl.new (Fin 0.72)) (Fin 300) (Fin 1.2)
             (Fin 1.8e-5) (Fin 1004.5))
          (Fin 300) (Fin 1.2) (Fin 1.716e-5) (Fin 1004.5))
     = CConstantPrandtl.Kt
         (CConstantPrandtl.SetConductivity
            (CConstantPrandtl.new (Fin 0.72)) (Fin 1500) (Fin 0.2)
            (Fin 1.716e-5) (Fin 1004.5)).
Proof.
  split; [reflexivity|].
  exact (proj1 (ConstantPrandtl_ignores_T_rho
                  (CConstantPrandtl.SetConductivity
                     (CConstantPrandtl.new (Fin 0.72)) (Fin 300) (Fin 1.2)
                     (Fin 1.8e-5) (Fin 1004.5))
                  (CConstantPrandtl.new (Fin 0.72))
                  (Fin 300) (Fin 1.2) (Fin 1500) (Fin 0.2) eq_refl)
           (Fin 1.716e-5) (Fin 1004.5)).
Defined.

(* ===================================================================== *)
(** * Sequences of calls, in every arithmetic *)
(* ===================================================================== *)

Section Sequences.
Context {D FP : Type} `{DoubleArith D} `{FluidPropLib D FP} `{PrintfDouble D}.
Local Open Scope double_scope.

(** ** The analytic models keep no history *)

(** X1.  Any sequence of calls on a Sutherland model leaves the object that
    the last [SetViscosity] and the last [SetDerViscosity] of the sequence
    alone would leave, in either order, and leaves the world (FluidProp, the
    standard output) as it was. *)
Theorem Sutherland_calls_are_the_last_calls (cs : list (ViscosityCall D)) :
  forall (this : CSutherland.t D) (w : World FP),
    viscosity_calls this cs w = (Sutherland_last_calls this cs, w).
Proof.
  induction cs as [|c cs IH]; intros this w; [reflexivity|].
  cbn [viscosity_calls]. unfold bind.
  assert (Hstep : forall m : CSutherland.t D,
             viscosity_call this c w = (m, w) ->
             Sutherland_last_calls m cs = Sutherland_last_calls this (c :: cs) ->
             (let (a, w') := viscosity_call this c w in viscosity_calls a cs w')
             = (Sutherland_last_calls this (c :: cs), w)).
  { intros m Hcall Hlast. rewrite Hcall, IH, Hlast. reflexivity. }
  destruct c as [T rho|T rho].
  - apply (Hstep (CSutherland.SetViscosity this T rho)); [reflexivity|].
    unfold Sutherland_last_calls.
    cbn [last_SetViscosity last_SetDerViscosity].
    destruct (last_SetViscosity cs) as [[Tv rv]|];
      destruct (last_SetDerViscosity cs) as [[Td rd]|]; reflexivity.
  - apply (Hstep (CSutherland.SetDerViscosity this T rho)); [reflexivity|].
    unfold Sutherland_last_calls.
    cbn [last_SetViscosity last_SetDerViscosity].
    destruct (last_SetViscosity cs) as [[Tv rv]|];
      destruct (last_SetDerViscosity cs) as [[Td rd]|]; reflexivity.
Qed.

(** X2.  Any sequence of calls on a Constant-Prandtl model leaves the
    object that the last [SetConductivity] and the last
    [SetDerConductivity] of the sequence alone would leave, and leaves the
    world as it was. *)
Theorem ConstantPrandtl_calls_are_the_last_calls
    (cs : list (ConductivityCall D)) :
  forall (this : CConstantPrandtl.t D) (w : World FP),
    conductivity_calls this cs w = (ConstantPrandtl_last_calls this cs, w).
Proof.
  induction cs as [|c cs IH]; intros this w; [reflexivity|].
  cbn [conductivity_calls]. unfold bind.
  assert (Hstep : forall m : CConstantPrandtl.t D,
             conductivity_call this c w = (m, w) ->
             ConstantPrandtl_last_calls m cs
             = ConstantPrandtl_last_calls this (c :: cs) ->
             (let (a, w') := conductivity_call this c w in
              conductivity_calls a cs w')
             = (ConstantPrandtl_last_calls this (c :: cs), w)).
  { intros m Hcall Hlast. rewrite Hcall, IH, Hlast. reflexivity. }
  destruct c as [T rho mu cp|T rho dr dT cp].
  - apply (Hstep (CConstantPrandtl.SetConductivity this T rho mu cp));
      [reflexivity|].
    unfold ConstantPrandtl_last_calls.
    cbn [last_SetConductivity last_SetDerConductivity].
    destruct (last_SetConductivity cs) as [[[[Tv rv] mv] cv]|];
      destruct (last_SetDerConductivity cs) as [[[[[Td rd] dr'] dT'] cd]|];
      reflexivity.
  - apply (Hstep (CConstantPrandtl.SetDerConductivity this T rho dr dT cp));
      [reflexivity|].
    unfold ConstantPrandtl_last_calls.
    cbn [last_SetConductivity last_SetDerConductivity].
    destruct (last_SetConductivity cs) as [[[[Tv rv] mv] cv]|];
      destruct (last_SetDerConductivity cs) as [[[[[Td rd] dr'] dT'] cd]|];
      reflexivity.
Qed.

(** ** The FluidProp-backed models, with or without an error *)

Lemma append_empty_r (s : string) : (s ++ "")%string = s.
Proof. induction s as [|c s IH]; cbn; [reflexivity|rewrite IH; reflexivity]. Qed.

Lemma append_assoc (a b c : string) :
  ((a ++ b) ++ c)%string = (a ++ (b ++ c))%string.
Proof.
  induction a as [|x a IH]; cbn; [reflexivity|rewrite IH; reflexivity].
Qed.

(** Runs a FluidProp-backed method on both sides of its test of the error
    message, the standard output written as the former one extended. *)
Ltac run_method :=
  cbv [CFluidPropViscosity.SetViscosity CFluidPropViscosity.SetDerViscosity
       CFluidPropConductivity.SetConductivity
       CFluidPropConductivity.SetDerConductivity
       bind ret alltransprops geterror printf];
  match goal with
  | |- context [fluidprop_alltransprops ?m ?T ?r ?s] =>
      destruct (fluidprop_alltransprops m T r s) as [?r ?fp]
  end;
  cbn [fst snd fluidprop stdout];
  match goal with
  | |- context [Z.eqb ?a ?b] => destruct (Z.eqb a b)
  end;
  cbn [fst snd fluidprop stdout].

Lemma FluidPropViscosity_call_world
    (this : CFluidPropViscosity.t D) (c : ViscosityCall D) (w : World FP) :
  fluidprop (snd (viscosity_call this c w)) = viscosity_query (fluidprop w) c
  /\ exists out : string,
       stdout (snd (viscosity_call this c w)) = (stdout w ++ out)%string.
Proof.
  destruct c as [T rho|T rho]; cbn [viscosity_call viscosity_query];
    cbn [SetViscosity SetDerViscosity CFluidPropViscosity_model];
    run_method; (split; [reflexivity|]);
    try (exists ""%string; symmetry; apply append_empty_r);
    eexists; rewrite append_assoc; reflexivity.
Qed.

Lemma FluidPropConductivity_call_world
    (this : CFluidPropConductivity.t D) (c : ConductivityCall D)
    (w : World FP) :
  fluidprop (snd (conductivity_call this c w))
  = conductivity_query (fluidprop w) c
  /\ exists out : string,
       stdout (snd (conductivity_call this c w)) = (stdout w ++ out)%string.
Proof.
  destruct c as [T rho mu cp|T rho dr dT cp];
    cbn [conductivity_call conductivity_query];
    cbn [SetConductivity SetDerConductivity CFluidPropConductivity_model];
    run_method; (split; [reflexivity|]);
    try (exists ""%string; symmetry; apply append_empty_r);
    eexists; rewrite append_assoc; reflexivity.
Qed.

(** X3.  Whether FluidProp reports an error or not, a FluidProp-backed
    method returns the object with the answer of the library in the fields
    it writes ([Mu]; [dmudT_rho] and [dmudrho_T]; [Kt]; [dktdT_rho] and
    [dktdrho_T]) and every other field, [Pr_const] included, as it was.
    [SetConductivity] and [SetDerConductivity] use none of [mu], [cp] and
    the viscosity derivatives. *)
Theorem FluidProp_methods_store_the_answer (T rho : D) (w : World FP) :
  let r := fst (fluidprop_alltransprops "Td" T rho (fluidprop w)) in
  (forall this : CFluidPropViscosity.t D,
      fst (CFluidPropViscosity.SetViscosity this T rho w)
      = {| CFluidPropViscosity.base :=
             {| CViscosityModel.Mu := eta r;
                CViscosityModel.dmudrho_T := CFluidPropViscosity.dmudrho_T this;
                CViscosityModel.dmudT_rho := CFluidPropViscosity.dmudT_rho this
             |} |})
  /\ (forall this : CFluidPropViscosity.t D,
      fst (CFluidPropViscosity.SetDerViscosity this T rho w)
      = {| CFluidPropViscosity.base :=
             {| CViscosityModel.Mu := CFluidPropViscosity.Mu this;
                CViscosityModel.dmudrho_T := deta_drho r;
                CViscosityModel.dmudT_rho := deta_dT r |} |})
  /\ (forall (this : CFluidPropConductivity.t D) (mu cp : D),
      fst (CFluidPropConductivity.SetConductivity this T rho mu cp w)
      = {| CFluidPropConductivity.base :=
             {| CConductivityModel.Kt := lambda r;
                CConductivityModel.dktdrho_T :=
                  CFluidPropConductivity.dktdrho_T this;
                CConductivityModel.dktdT_rho :=
                  CFluidPropConductivity.dktdT_rho this |};
           CFluidPropConductivity.Pr_const :=
             CFluidPropConductivity.Pr_const this |})
  /\ (forall (this : CFluidPropConductivity.t D) (dmudrho_T dmudT_rho cp : D),
      fst (CFluidPropConductivity.SetDerConductivity
             this T rho dmudrho_T dmudT_rho cp w)
      = {| CFluidPropConductivity.base :=
             {| CConductivityModel.Kt := CFluidPropConductivity.Kt this;
                CConductivityModel.dktdrho_T := dlambda_drho r;
                CConductivityModel.dktdT_rho := dlambda_dT r |};
           CFluidPropConductivity.Pr_const :=
             CFluidPropConductivity.Pr_const this |}).
Proof.
  cbn zeta. repeat split; intros; run_method; reflexivity.
Qed.

(** X4.  A sequence of calls on a FluidProp-backed model queries the
    library once for each call, in the order of the calls, always in mode
    ["Td"] and with the [T] and [rho] of the call, whatever errors the
    library reports on the way. *)
Theorem FluidProp_calls_query_once_each :
  (forall (cs : list (ViscosityCall D)) (this : CFluidPropViscosity.t D)
          (w : World FP),
      fluidprop (snd (viscosity_calls this cs w))
      = fold_left viscosity_query cs (fluidprop w))
  /\ (forall (cs : list (ConductivityCall D))
             (this : CFluidPropConductivity.t D) (w : World FP),
      fluidprop (snd (conductivity_calls this cs w))
      = fold_left conductivity_query cs (fluidprop w)).
Proof.
  split.
  - induction cs as [|c cs IH]; intros this w; [reflexivity|].
    cbn [viscosity_calls fold_left]. unfold bind.
    destruct (FluidPropViscosity_call_world this c w) as [Hq _].
    destruct (viscosity_call this c w) as [this1 w1].
    rewrite IH. cbn [snd] in Hq. rewrite Hq. reflexivity.
  - induction cs as [|c cs IH]; intros this w; [reflexivity|].
    cbn [conductivity_calls fold_left]. unfold bind.
    destruct (FluidPropConductivity_call_world this c w) as [Hq _].
    destruct (conductivity_call this c w) as [this1 w1].
    rewrite IH. cbn [snd] in Hq. rewrite Hq. reflexivity.
Qed.


Lemma FluidPropViscosity_call_silent
    (this : CFluidPropViscosity.t D) (c : ViscosityCall D) (w : World FP) :
  (forall fp : FP, fluidprop_geterror fp = "No errors"%string) ->
  stdout (snd (viscosity_call this c w)) = stdout w.
Proof.
  intros Hok.
  destruct c as [T rho|T rho]; cbn [viscosity_call];
    cbn [SetViscosity SetDerViscosity CFluidPropViscosity_model];
    cbv [CFluidPropViscosity.SetViscosity CFluidPropViscosity.SetDerViscosity
         bind ret alltransprops geterror printf];
    destruct (fluidprop_alltransprops "Td" T rho (fluidprop w)) as [r fp'];
    cbn [fst snd fluidprop stdout]; rewrite Hok; reflexivity.
Qed.

Lemma FluidPropConductivity_call_silent
    (this : CFluidPropConductivity.t D) (c : ConductivityCall D)
    (w : World FP) :
  (forall fp : FP, fluidprop_geterror fp = "No errors"%string) ->
  stdout (snd (conductivity_call this c w)) = stdout w.
Proof.
  intros Hok.
  destruct c as [T rho mu cp|T rho dr dT cp]; cbn [conductivity_call];
    cbn [SetConductivity SetDerConductivity CFluidPropConductivity_model];
    cbv [CFluidPropConductivity.SetConductivity
         CFluidPropConductivity.SetDerConductivity
         bind ret alltransprops geterror printf];
    destruct (fluidprop_alltransprops "Td" T rho (fluidprop w)) as [r fp'];
    cbn [fst snd fluidprop stdout]; rewrite Hok; reflexivity.
Qed.

(** X6.  On a FluidProp whose message is always ["No errors"], no sequence
    of calls on a FluidProp-backed model prints anything. *)
Theorem FluidProp_calls_print_nothing_without_error
    (Hok : forall fp : FP, fluidprop_geterror fp = "No errors"%string) :
  (forall (cs : list (ViscosityCall D)) (this : CFluidPropViscosity.t D)
          (w : World FP),
      stdout (snd (viscosity_calls this cs w)) = stdout w)
  /\ (forall (cs : list (ConductivityCall D))
             (this : CFluidPropConductivity.t D) (w : World FP),
      stdout (snd (conductivity_calls this cs w)) = stdout w).
Proof.
  split.
  - induction cs as [|c cs IH]; intros this w; [reflexivity|].
    cbn [viscosity_calls]. unfold bind.
    pose proof (FluidPropViscosity_call_silent this c w Hok) as Hc.
    destruct (viscosity_call this c w) as [this1 w1].
    rewrite IH. exact Hc.
  - induction cs as [|c cs IH]; intros this w; [reflexivity|].
    cbn [conductivity_calls]. unfold bind.
    pose proof (FluidPropConductivity_call_silent this c w Hok) as Hc.
    destruct (conductivity_call this c w) as [this1 w1].
    rewrite IH. exact Hc.
Qed.

(** X7.  On an error, the second line [SetDerViscosity] prints shows the
    answered temperature derivative twice, once under the label
    [dmudrho_dT]; the answered density derivative is stored and not
    printed.  [SetDerConductivity] does the same with [dktdT_rho]. *)
Theorem FluidProp_derivative_diagnostic (T rho : D) (w : World FP) :
  let answer := fluidprop_alltransprops "Td" T rho (fluidprop w) in
  let r := fst answer in
  let e := fluidprop_geterror (snd answer) in
  e <> "No errors"%string ->
  (forall this : CFluidPropViscosity.t D,
      stdout (snd (CFluidPropViscosity.SetDerViscosity this T rho w))
      = ((stdout w ++ ("FluidProp error message: " ++ e ++ nl))
         ++ ("T = " ++ fmt_f T ++ ", rho = " ++ fmt_f rho
             ++ ", dmudT_rho = " ++ fmt_f (deta_dT r)
             ++ ", dmudrho_dT = " ++ fmt_f (deta_dT r) ++ nl))%string)
  /\ (forall (this : CFluidPropConductivity.t D) (dmudrho_T dmudT_rho cp : D),
      stdout (snd (CFluidPropConductivity.SetDerConductivity
                     this T rho dmudrho_T dmudT_rho cp w))
      = ((stdout w ++ ("FluidProp error message: " ++ e ++ nl))
         ++ ("T = " ++ fmt_f T ++ ", rho = " ++ fmt_f rho
             ++ ", dktdT_rho = " ++ fmt_f (dlambda_dT r)
             ++ ", dktdrho_dT = " ++ fmt_f (dlambda_dT r) ++ nl))%string).
Proof.
  intros answer r e He.
  apply strcmp_differs in He.
  subst e r answer.
  split; intros;
    cbv [CFluidPropViscosity.SetDerViscosity
         CFluidPropConductivity.SetDerConductivity
         bind ret alltransprops geterror printf];
    destruct (fluidprop_alltransprops "Td" T rho (fluidprop w)) as [r fp'];
    cbn in He |- *; rewrite He; reflexivity.
Qed.

End Sequences.

(* ===================================================================== *)
(** * The analytic models in exact arithmetic *)
(* ===================================================================== *)

Section ExactModels.
Local Open Scope R_scope.

(** Evaluates the operations of [xreal] on real operands; a division takes
    the branch of the divisor the context decides. *)
Ltac xreal_eval :=
  repeat (cbn [xlift2 xdiv xpow xval];
          match goal with
          | |- context [Req_dec_T ?a 0] =>
              destruct (Req_dec_T a 0) as [?|?];
              [try (exfalso; (contradiction || lra))
              |try (exfalso; (contradiction || lra))]
          end);
  cbn [xlift2 xdiv xpow xval].

(** ** When an operation of [xreal] gives a real number *)







(** ** Sutherland's law *)










(** ** The Constant-Prandtl conductivity *)

Lemma ConstantPrandtl_Kt_value
    (this : CConstantPrandtl.t xreal) (T rho : xreal) (a c p : R) :
  CConstantPrandtl.Pr_const this = Fin p -> p <> 0 ->
  CConstantPrandtl.Kt
    (CConstantPrandtl.SetConductivity this T rho (Fin a) (Fin c))
  = Fin (a * c / p).
Proof.
  intros Hp Hnz.
  cbv [CConstantPrandtl.Kt CConstantPrandtl.SetConductivity
       CConstantPrandtl.with_base CConstantPrandtl.base
       CConductivityModel.set_Kt CConductivityModel.Kt].
  rewrite Hp. cbn [dmul ddiv xreal_arith]. xreal_eval. reflexivity.
Qed.

Lemma ConstantPrandtl_derivatives_value
    (this : CConstantPrandtl.t xreal) (T rho : xreal) (dr dT c p : R) :
  CConstantPrandtl.Pr_const this = Fin p -> p <> 0 ->
  let this' :=
    CConstantPrandtl.SetDerConductivity
      this T rho (Fin dr) (Fin dT) (Fin c) in
  CConstantPrandtl.dktdrho_T this' = Fin (dr * c / p)
  /\ CConstantPrandtl.dktdT_rho this' = Fin (dT * c / p).
Proof.
  intros Hp Hnz.
  cbv [CConstantPrandtl.dktdrho_T CConstantPrandtl.dktdT_rho
       CConstantPrandtl.SetDerConductivity
       CConstantPrandtl.with_base CConstantPrandtl.base
       CConductivityModel.set_dktdrho_T CConductivityModel.set_dktdT_rho
       CConductivityModel.dktdrho_T CConductivityModel.dktdT_rho].
  rewrite Hp. cbn [dmul ddiv xreal_arith]. xreal_eval. split; reflexivity.
Qed.

(** X12.  With a constant [cp] and a [Pr_const] other than zero: when the
    viscosity given to [SetConductivity] is a function of the temperature
    (of the density) and the value given to [SetDerConductivity] is its
    derivative, the field [dktdT_rho] ([dktdrho_T]) is the derivative of the
    stored [Kt] with respect to the temperature (the density). *)
Theorem ConstantPrandtl_derivatives_are_derivatives_of_Kt
    (this : CConstantPrandtl.t xreal) (p cp : R) (mu : R -> R) (x dmu : R) :
  CConstantPrandtl.Pr_const this = Fin p -> p <> 0 ->
  derivable_pt_lim mu x dmu ->
  (forall (rho : xreal) (dr : R),
      derivable_pt_lim
        (fun T : R =>
           xval (CConstantPrandtl.Kt
                   (CConstantPrandtl.SetConductivity
                      this (Fin T) rho (Fin (mu T)) (Fin cp))))
        x
        (xval (CConstantPrandtl.dktdT_rho
                 (CConstantPrandtl.SetDerConductivity
                    this (Fin x) rho (Fin dr) (Fin dmu) (Fin cp)))))
  /\ (forall (T : xreal) (dT : R),
      derivable_pt_lim
        (fun rho : R =>
           xval (CConstantPrandtl.Kt
                   (CConstantPrandtl.SetConductivity
                      this T (Fin rho) (Fin (mu rho)) (Fin cp))))
        x
        (xval (CConstantPrandtl.dktdrho_T
                 (CConstantPrandtl.SetDerConductivity
                    this T (Fin x) (Fin dmu) (Fin dT) (Fin cp))))).
Proof.
  intros Hp Hnz Hmu.
  assert (Hscaled : derivable_pt_lim (mult_real_fct (cp / p) mu) x
                      (dmu * cp / p)).
  { replace (dmu * cp / p) with (cp / p * dmu) by (field; exact Hnz).
    apply derivable_pt_lim_scal. exact Hmu. }
  split.
  - intros rho dr.
    destruct (ConstantPrandtl_derivatives_value this (Fin x) rho dr dmu cp
                Hp Hnz) as [_ HdT].
    rewrite HdT. cbn [xval].
    apply derivable_pt_lim_ext with (f := mult_real_fct (cp / p) mu);
      [|exact Hscaled].
    intros T. rewrite (ConstantPrandtl_Kt_value this (Fin T) rho _ _ Hp Hnz).
    cbn [xval]. unfold mult_real_fct. field. exact Hnz.
  - intros T dT.
    destruct (ConstantPrandtl_derivatives_value this T (Fin x) dmu dT cp
                Hp Hnz) as [Hdr _].
    rewrite Hdr. cbn [xval].
    apply derivable_pt_lim_ext with (f := mult_real_fct (cp / p) mu);
      [|exact Hscaled].
    intros rho. rewrite (ConstantPrandtl_Kt_value this T (Fin rho) _ _ Hp Hnz).
    cbn [xval]. unfold mult_real_fct. field. exact Hnz.
Qed.



(** ** A Sutherland viscosity given to a Constant-Prandtl conductivity *)


End ExactModels.

(* ===================================================================== *)
(** * The further theorems with hypotheses, applied *)
(* ===================================================================== *)

Section Applied.
Local Open Scope R_scope.

(** On the library that never reports an error, a [SetViscosity] followed
    by a [SetDerViscosity] prints nothing. *)
Lemma accepted_queries_print_nothing :
  (forall fp : unit, fluidprop_geterror fp = "No errors"%string)
  /\ stdout
       (snd (viscosity_calls
               (CFluidPropViscosity.new_void (D := xreal))
               [CallSetViscosity (Fin 300) (Fin 1.2);
                CallSetDerViscosity (Fin 300) (Fin 1.2)]
               {| fluidprop := tt; stdout := ""%string |}))
     = ""%string.
Proof.
  assert (Hok : forall fp : unit, fluidprop_geterror fp = "No errors"%string)
    by (intros fp; reflexivity).
  split; [exact Hok|].
  exact (proj1 (FluidProp_calls_print_nothing_without_error Hok)
           [CallSetViscosity (Fin 300) (Fin 1.2);
            CallSetDerViscosity (Fin 300) (Fin 1.2)]
           CFluidPropViscosity.new_void
           {| fluidprop := tt; stdout := ""%string |}).
Defined.

(** On the library that rejects every query, the second line of
    [SetDerViscosity] shows the NaN answered for the temperature derivative
    under both labels. *)
Lemma rejected_derivative_query_diagnostic :
  fluidprop_geterror
    (snd (fluidprop_alltransprops "Td" (Fin 300) (Fin 1)
            (fluidprop fresh_world)))
  <> "No errors"%string
  /\ stdout
       (snd (CFluidPropViscosity.SetDerViscosity
               CFluidPropViscosity.new_void (Fin 300) (Fin 1) fresh_world))
     = (("FluidProp error message: Input out of range" ++ nl)
        ++ ("T = %f, rho = %f, dmudT_rho = nan, dmudrho_dT = nan" ++ nl))%string.
Proof.
  assert (He :
    fluidprop_geterror
      (snd (fluidprop_alltransprops "Td" (Fin 300) (Fin 1)
              (fluidprop fresh_world)))
    <> "No errors"%string) by discriminate.
  split; [exact He|].
  exact (proj1 (FluidProp_derivative_diagnostic
                  (Fin 300) (Fin 1) fresh_world He)
           CFluidPropViscosity.new_void).
Defined.




(** With [Pr = 0.72], [cp = 1004.5] and a viscosity equal to the
    temperature, [dktdT_rho] is the derivative of [Kt] at [T = 300]. *)
Lemma ConstantPrandtl_derivative_of_Kt_at_300 :
  (CConstantPrandtl.Pr_const (CConstantPrandtl.new (Fin 0.72)) = Fin 0.72
   /\ 0.72 <> 0
   /\ derivable_pt_lim id 300 1)
  /\ derivable_pt_lim
       (fun T : R =>
          xval (CConstantPrandtl.Kt
                  (CConstantPrandtl.SetConductivity
                     (CConstantPrandtl.new (Fin 0.72))
                     (Fin T) (Fin 1.2) (Fin (id T)) (Fin 1004.5))))
       300
       (xval (CConstantPrandtl.dktdT_rho
                (CConstantPrandtl.SetDerConductivity
                   (CConstantPrandtl.new (Fin 0.72))
                   (Fin 300) (Fin 1.2) (Fin 0) (Fin 1) (Fin 1004.5)))).
Proof.
  assert (Hp : 0.72 <> 0) by lra.
  assert (Hid : derivable_pt_lim id 300 1) by apply derivable_pt_lim_id.
  split; [repeat split; assumption|].
  exact (proj1 (@ConstantPrandtl_derivatives_are_derivatives_of_Kt
                  (CConstantPrandtl.new (Fin 0.72)) 0.72 1004.5 id 300 1
                  eq_refl Hp Hid)
           (Fin 1.2) 0).
Defined.



(** With [T_ref = 1] the value [SetDerViscosity] stores is the derivative
    of the stored viscosity. *)
Lemma unit_T_ref_stores_the_derivative :
  (0 < 1 /\ 0 < 1.2 /\ 1.2 + 0.4 <> 0 /\ (1 = 1 \/ 1.716e-5 * (1 + 0.4) = 0))
  /\ derivable_pt_lim
       (Sutherland_Mu_of_T
          (CSutherland.new (Fin 1.716e-5) (Fin 1) (Fin 0.4)) (Fin 1.2))
       1.2
       (xval (CSutherland.dmudT_rho
                (CSutherland.SetDerViscosity
                   (CSutherland.new (Fin 1.716e-5) (Fin 1) (Fin 0.4))
                   (Fin 1.2) (Fin 1.2)))).
Proof.
  assert (H1 : 0 < 1) by lra.
  assert (H2 : 0 < 1.2) by lra.
  assert (H3 : 1.2 + 0.4 <> 0) by lra.
  assert (H4 : 1 = 1 \/ 1.716e-5 * (1 + 0.4) = 0) by (left; reflexivity).
  split; [repeat split; assumption|].
  exact (proj2 (Sutherland_dmudT_rho_derivative_iff
                  (CSutherland.new (Fin 1.716e-5) (Fin 1) (Fin 0.4))
                  (Fin 1.2) eq_refl eq_refl eq_refl H1 H2 H3)
           H4).
Defined.

End Applied.
